(** * Reference odometry: frame algebra and the latching engine

    A shallow embedding of [reference_odometry.py] (ROS node
    [ReferenceOdometryPublisher]) and of the functions of
    [tf.transformations] and [numpy] it calls.

    Conventions of the embedding.
    - Python floats are read as real numbers ([R]): [+ - * /], [math.sqrt]
      and the comparisons are the exact ones, so an identity that the
      program satisfies "within tolerance" is stated as an equality.
      [math.sqrt] of a negative number and a division by zero raise, as in
      Python.
    - A numpy array of shape (4,) is a [vec4], of shape (3,) a [vec3] and of
      shape (4,4) a [mat4] (four rows).
    - ROS messages are records.  [geometry_msgs/Point] and
      [geometry_msgs/Vector3] have the same fields and the program assigns
      one to the other, so both are [Vector3].  A message is no sequence:
      it can be neither subscripted, nor unpacked, nor handed to [list]
      ([TypeError]), and it takes no attribute besides its fields
      ([AttributeError]).
    - [tf.transformations] (ROS [geometry], [tf/src/tf/transformations.py])
      and [numpy] are libraries the file imports; the functions it calls are
      embedded from the libraries' code, [numpy.linalg.inv] as the exact
      inverse.
    - The file is read as written, statement by statement.  A name that no
      import and no definition binds raises [NameError] where it is read:
      [PoseStamped] and [TransformStamped] in [__init__] and [main],
      [ux_idx] in [callback].  The line of [main] that builds the twist
      (line 154) leaves a parenthesis open; no execution reaches it, since
      an earlier line of the same statement raises, and it is not embedded.
    - No statement writes into a message that the node has stored (the node
      only rebinds its fields), so messages are values.
    - Exceptions are the constructor [Raise] of [result]. *)

From Stdlib Require Import Reals Lra Lia List String Bool Arith.
Import ListNotations.

Local Open Scope R_scope.

(** ** Exceptions *)

Inductive exn : Type :=
| ValueError          (* math.sqrt of a negative number, list.index miss *)
| ZeroDivisionError   (* float division by zero *)
| LinAlgError         (* numpy.linalg.inv of a singular matrix *)
| IndexError          (* subscript out of range *)
| AttributeError      (* attribute that the object does not have *)
| TypeError           (* a message used as a sequence *)
| NameError.          (* a name that nothing binds *)

Inductive result (A : Type) : Type :=
| Ok (a : A)
| Raise (e : exn).

Arguments Ok {A} a.
Arguments Raise {A} e.

Definition bind {A B : Type} (r : result A) (k : A -> result B) : result B :=
  match r with
  | Ok a => k a
  | Raise e => Raise e
  end.

(** What a statement that raises nothing returns. *)
Definition done : unit := tt.

Notation "x <- r ;; k" := (bind r (fun x => k))
  (at level 61, r at next level, right associativity).

(** ** numpy arrays of fixed shape *)

Record vec3 : Type := V3 { c0 : R; c1 : R; c2 : R }.

Record vec4 : Type := V4 { e0 : R; e1 : R; e2 : R; e3 : R }.

Record mat4 : Type := M4 { row0 : vec4; row1 : vec4; row2 : vec4; row3 : vec4 }.

(** [q[i]] *)
Definition get4 (q : vec4) (i : nat) : R :=
  match i with
  | O => e0 q
  | 1%nat => e1 q
  | 2%nat => e2 q
  | _ => e3 q
  end.

(** [q[i] = v] *)
Definition set4 (q : vec4) (i : nat) (v : R) : vec4 :=
  match i with
  | O => V4 v (e1 q) (e2 q) (e3 q)
  | 1%nat => V4 (e0 q) v (e2 q) (e3 q)
  | 2%nat => V4 (e0 q) (e1 q) v (e3 q)
  | _ => V4 (e0 q) (e1 q) (e2 q) v
  end.

(** [m[i]], a row *)
Definition getrow (m : mat4) (i : nat) : vec4 :=
  match i with
  | O => row0 m
  | 1%nat => row1 m
  | 2%nat => row2 m
  | _ => row3 m
  end.

(** [m[i, j]] *)
Definition at4 (m : mat4) (i j : nat) : R := get4 (getrow m i) j.

(** The array whose entry [i] is [f i], and the matrix whose entry [i, j]
    is [f i j]. *)
Definition build4 (f : nat -> R) : vec4 := V4 (f 0%nat) (f 1%nat) (f 2%nat) (f 3%nat).

Definition buildm (f : nat -> nat -> R) : mat4 :=
  M4 (build4 (f 0%nat)) (build4 (f 1%nat)) (build4 (f 2%nat)) (build4 (f 3%nat)).

(** [m[:, j]], a column *)
Definition getcol (m : mat4) (j : nat) : vec4 := build4 (fun i => at4 m i j).

(** [numpy.dot] on two arrays of shape (4,) *)
Definition dot4 (a b : vec4) : R :=
  e0 a * e0 b + e1 a * e1 b + e2 a * e2 b + e3 a * e3 b.

(** [q *= s] *)
Definition scale4 (s : R) (q : vec4) : vec4 :=
  V4 (e0 q * s) (e1 q * s) (e2 q * s) (e3 q * s).

(** [numpy.outer] *)
Definition outer (a b : vec4) : mat4 := buildm (fun i j => get4 a i * get4 b j).

(** [numpy.eye(4)], [numpy.identity(4)] *)
Definition eye4 : mat4 :=
  M4 (V4 1 0 0 0) (V4 0 1 0 0) (V4 0 0 1 0) (V4 0 0 0 1).

(** [numpy.trace] *)
Definition trace (m : mat4) : R :=
  at4 m 0 0 + at4 m 1 1 + at4 m 2 2 + at4 m 3 3.

(** [a[:3]] *)
Definition take3 (a : vec4) : vec3 := V3 (e0 a) (e1 a) (e2 a).

Module np.

(** [numpy.dot] on two arrays of shape (4,4): the matrix product. *)
Definition dot (a b : mat4) : mat4 :=
  buildm (fun i j => dot4 (getrow a i) (getcol b j)).

(** Determinant of the 3x3 array [f]. *)
Definition det3 (f : nat -> nat -> R) : R :=
  f 0%nat 0%nat * (f 1%nat 1%nat * f 2%nat 2%nat - f 1%nat 2%nat * f 2%nat 1%nat)
  - f 0%nat 1%nat * (f 1%nat 0%nat * f 2%nat 2%nat - f 1%nat 2%nat * f 2%nat 0%nat)
  + f 0%nat 2%nat * (f 1%nat 0%nat * f 2%nat 1%nat - f 1%nat 1%nat * f 2%nat 0%nat).

(** Index [k] of the array that remains once index [i] is deleted. *)
Definition skip (i k : nat) : nat := if (k <? i)%nat then k else S k.

Definition sign (n : nat) : R := if Nat.even n then 1 else -1.

(** Cofactor [i, j]: signed determinant of [m] without row [i] and
    column [j]. *)
Definition cofactor (m : mat4) (i j : nat) : R :=
  sign (i + j) * det3 (fun a b => at4 m (skip i a) (skip j b)).

Definition det (m : mat4) : R :=
  at4 m 0 0 * cofactor m 0 0 + at4 m 0 1 * cofactor m 0 1
  + at4 m 0 2 * cofactor m 0 2 + at4 m 0 3 * cofactor m 0 3.

(** [numpy.linalg.inv]: the inverse of a square matrix, [LinAlgError] on
    a singular one.  In exact arithmetic the inverse is the adjugate over
    the determinant, whatever factorisation computes it. *)
Definition linalg_inv (m : mat4) : result mat4 :=
  if Req_dec_T (det m) 0 then Raise LinAlgError
  else Ok (buildm (fun i j => cofactor m j i / det m)).

End np.

(** ** tf.transformations *)

Module trf.

(** [_EPS = numpy.finfo(float).eps * 4.0], with [eps = 2^-52]. *)
Definition _EPS : R := / 2 ^ 52 * 4.

(** [quaternion_matrix(quaternion)]: homogeneous rotation matrix of a
    quaternion [[x, y, z, w]]; the identity below [_EPS]. *)
Definition quaternion_matrix (quaternion : vec4) : mat4 :=
  let q := quaternion in
  let nq := dot4 q q in
  if Rlt_dec nq _EPS then eye4
  else
    let q := scale4 (sqrt (2 / nq)) q in
    let q := outer q q in
    M4 (V4 (1 - at4 q 1 1 - at4 q 2 2) (at4 q 0 1 - at4 q 2 3) (at4 q 0 2 + at4 q 1 3) 0)
       (V4 (at4 q 0 1 + at4 q 2 3) (1 - at4 q 0 0 - at4 q 2 2) (at4 q 1 2 - at4 q 0 3) 0)
       (V4 (at4 q 0 2 - at4 q 1 3) (at4 q 1 2 + at4 q 0 3) (1 - at4 q 0 0 - at4 q 1 1) 0)
       (V4 0 0 0 1).

(** [math.sqrt(x)] followed by [0.5 / _]. *)
Definition half_over_sqrt (x : R) : result R :=
  if Rlt_dec x 0 then Raise ValueError
  else if Req_dec_T (sqrt x) 0 then Raise ZeroDivisionError
  else Ok (0.5 / sqrt x).

(** [quaternion_from_matrix(matrix)] *)
Definition quaternion_from_matrix (matrix : mat4) : result vec4 :=
  let M := matrix in
  let q := V4 0 0 0 0 in
  let t := trace M in
  let '(t, q) :=
    if Rgt_dec t (at4 M 3 3) then
      let q := set4 q 3 t in
      let q := set4 q 2 (at4 M 1 0 - at4 M 0 1) in
      let q := set4 q 1 (at4 M 0 2 - at4 M 2 0) in
      let q := set4 q 0 (at4 M 2 1 - at4 M 1 2) in
      (t, q)
    else
      let '(i, j, k) := (0, 1, 2)%nat in
      let '(i, j, k) :=
        if Rgt_dec (at4 M 1 1) (at4 M 0 0) then (1, 2, 0)%nat else (i, j, k) in
      let '(i, j, k) :=
        if Rgt_dec (at4 M 2 2) (at4 M i i) then (2, 0, 1)%nat else (i, j, k) in
      let t := at4 M i i - (at4 M j j + at4 M k k) + at4 M 3 3 in
      let q := set4 q i t in
      let q := set4 q j (at4 M i j + at4 M j i) in
      let q := set4 q k (at4 M k i + at4 M i k) in
      let q := set4 q 3 (at4 M k j - at4 M j k) in
      (t, q) in
  s <- half_over_sqrt (t * at4 M 3 3) ;;
  Ok (scale4 s q).

(** [quaternion_multiply(quaternion1, quaternion0)] *)
Definition quaternion_multiply (quaternion1 quaternion0 : vec4) : vec4 :=
  let '(V4 x0 y0 z0 w0) := quaternion0 in
  let '(V4 x1 y1 z1 w1) := quaternion1 in
  V4 (x1 * w0 + y1 * z0 - z1 * y0 + w1 * x0)
     (- x1 * z0 + y1 * w0 + z1 * x0 + w1 * y0)
     (x1 * y0 - y1 * x0 + z1 * w0 + w1 * z0)
     (- x1 * x0 - y1 * y0 - z1 * z0 + w1 * w0).

(** [quaternion_conjugate(quaternion)] *)
Definition quaternion_conjugate (quaternion : vec4) : vec4 :=
  V4 (- e0 quaternion) (- e1 quaternion) (- e2 quaternion) (e3 quaternion).

End trf.

(** ** ROS messages *)

Definition Time : Type := nat.

Record Vector3 : Type := mkVector3 { vx : R; vy : R; vz : R }.

Record Quaternion : Type := mkQuaternion { qx : R; qy : R; qz : R; qw : R }.

Record Pose : Type := mkPose { position : Vector3; orientation : Quaternion }.

Record Transform : Type := mkTransform { translation : Vector3; rotation : Quaternion }.

Record Twist : Type := mkTwist { linear : Vector3; angular : Vector3 }.

Record Header : Type := mkHeader { stamp : Time; frame_id : string }.

(** [geometry_msgs/PoseStamped]: a header and a pose. *)
Record PoseStamped : Type := mkPoseStamped {
  ps_header : Header;
  ps_pose : Pose
}.

(** [geometry_msgs/TransformStamped]: a header, a child frame and a
    transform. *)
Record TransformStamped : Type := mkTransformStamped {
  header : Header;
  child_frame_id : string;
  transform : Transform
}.

Record Odometry : Type := mkOdometry {
  odom_header : Header;
  odom_child_frame_id : string;
  odom_pose : Pose;
  odom_twist : Twist
}.

Record ModelStates : Type := mkModelStates {
  name : list string;
  pose : list Pose;
  twist : list Twist
}.

(** A Python value as [pose2np] can receive it, tagged with its class. *)
Inductive pyobj : Type :=
| PoseObj (p : Pose)
| TransformObj (t : Transform)
| PoseStampedObj (s : PoseStamped)
| TransformStampedObj (s : TransformStamped)
| NoneObj.

(** A Python value as [transform_vector] and the quaternion functions of
    [tf.transformations] can receive it. *)
Inductive pyval : Type :=
| QuaternionMsg (q : Quaternion)   (* a geometry_msgs/Quaternion message *)
| Vector3Msg (v : Vector3)         (* a geometry_msgs/Vector3 or Point message *)
| Seq (l : list R).                (* a list, a tuple or an array of numbers *)

(** An object with the two attributes of a [Transform], each holding any
    value: Python does not type the slots of a message. *)
Record TransformObject : Type := mkTransformObject {
  t_translation : pyval;
  t_rotation : pyval
}.

(** A [Transform] message as rospy and [Transform()] make it: a [Vector3]
    and a [Quaternion] message in the slots. *)
Definition Transform_message (t : Transform) : TransformObject :=
  mkTransformObject (Vector3Msg (translation t)) (QuaternionMsg (rotation t)).

(** Message constructors without arguments: every number is zero. *)
Definition Vector3_0 : Vector3 := mkVector3 0 0 0.
Definition Quaternion_0 : Quaternion := mkQuaternion 0 0 0 0.
Definition Transform_0 : Transform := mkTransform Vector3_0 Quaternion_0.
Definition Pose_0 : Pose := mkPose Vector3_0 Quaternion_0.

(** A [Quaternion] message as the array [[x, y, z, w]]. *)
Definition quat_array (q : Quaternion) : vec4 := V4 (qx q) (qy q) (qz q) (qw q).

(** ** numpy slice assignments used by [pose2np] *)

(** [a[:3, :3] = b[:3, :3]] *)
Definition set_block3 (a b : mat4) : mat4 :=
  buildm (fun i j => if ((i <? 3) && (j <? 3))%nat%bool then at4 b i j else at4 a i j).

(** [a[:3, 3] = [x, y, z]] *)
Definition set_col3 (a : mat4) (x y z : R) : mat4 :=
  buildm (fun i j =>
    if (j =? 3)%nat then
      match i with
      | O => x
      | 1%nat => y
      | 2%nat => z
      | _ => at4 a i j
      end
    else at4 a i j).

(** ** Functions for convenience *)

(** [pose2np(p)]: the 4x4 matrix of a [Pose] or [Transform]; two independent
    [isinstance] tests on an [a] that starts as [np.eye(4)]. *)
Definition pose2np (p : pyobj) : mat4 :=
  let a := eye4 in
  let a :=
    match p with
    | PoseObj p =>
        let q := quat_array (orientation p) in
        let qmat := trf.quaternion_matrix q in
        let a := set_block3 a qmat in
        set_col3 a (vx (position p)) (vy (position p)) (vz (position p))
    | _ => a
    end in
  let a :=
    match p with
    | TransformObj p =>
        let q := quat_array (rotation p) in
        let a := trf.quaternion_matrix q in
        set_col3 a (vx (translation p)) (vy (translation p)) (vz (translation p))
    | _ => a
    end in
  a.

(** [np2trf(a, t)]: writes the translation, then the rotation, into [t]. *)
Definition np2trf (a : mat4) (t : Transform) : result Transform :=
  let t := mkTransform (mkVector3 (at4 a 0 3) (at4 a 1 3) (at4 a 2 3)) (rotation t) in
  q <- trf.quaternion_from_matrix a ;;
  Ok (mkTransform (translation t) (mkQuaternion (get4 q 0) (get4 q 1) (get4 q 2) (get4 q 3))).

(** [np2pose(a, p)] *)
Definition np2pose (a : mat4) (p : Pose) : result Pose :=
  let p := mkPose (mkVector3 (at4 a 0 3) (at4 a 1 3) (at4 a 2 3)) (orientation p) in
  q <- trf.quaternion_from_matrix a ;;
  Ok (mkPose (position p) (mkQuaternion (get4 q 0) (get4 q 1) (get4 q 2) (get4 q 3))).

(** [transform_between_poses(pb, pf)]: [g = inv(pb) * pf]. *)
Definition transform_between_poses (pb pf : pyobj) : result Transform :=
  let g_sb := pose2np pb in
  let g_sf := pose2np pf in
  g_sb_inv <- np.linalg_inv g_sb ;;
  let g := np.dot g_sb_inv g_sf in
  let t := Transform_0 in
  np2trf g t.

(** ** Sequences, as [tf.transformations] and [list] take them *)

(** [list(v)] *)
Definition list_ (v : pyval) : result (list R) :=
  match v with
  | Seq l => Ok l
  | _ => Raise TypeError
  end.

(** [x, y, z, w = v]: four entries, no more and no less. *)
Definition unpack4 (v : pyval) : result vec4 :=
  match v with
  | Seq [x; y; z; w] => Ok (V4 x y z w)
  | Seq _ => Raise ValueError
  | _ => Raise TypeError
  end.

(** [v[0]], [v[1]], [v[2]], [v[3]] *)
Definition first4 (v : pyval) : result vec4 :=
  match v with
  | Seq (x :: y :: z :: w :: _) => Ok (V4 x y z w)
  | Seq _ => Raise IndexError
  | _ => Raise TypeError
  end.

(** An array of shape (4,) as a value. *)
Definition array4 (q : vec4) : pyval := Seq [e0 q; e1 q; e2 q; e3 q].

(** A call of [trf.quaternion_multiply]: it unpacks [quaternion0], then
    [quaternion1]. *)
Definition quaternion_multiply_call (quaternion1 quaternion0 : pyval) : result vec4 :=
  q0 <- unpack4 quaternion0 ;;
  q1 <- unpack4 quaternion1 ;;
  Ok (trf.quaternion_multiply q1 q0).

(** A call of [trf.quaternion_conjugate]: it subscripts its argument. *)
Definition quaternion_conjugate_call (quaternion : pyval) : result vec4 :=
  q <- first4 quaternion ;;
  Ok (trf.quaternion_conjugate q).

(** [transform_vector(t, v1, inverse)]; Python evaluates the arguments of
    a call from left to right. *)
Definition transform_vector (t : TransformObject) (v1 : pyval) (inverse : bool)
  : result vec3 :=
  let q1 := t_rotation t in
  q2 <- list_ v1 ;;
  let q2 := Seq (q2 ++ [0]) in
  if inverse then
    c <- quaternion_conjugate_call q1 ;;
    m <- quaternion_multiply_call q2 q1 ;;
    r <- quaternion_multiply_call (array4 c) (array4 m) ;;
    Ok (take3 r)
  else
    m <- quaternion_multiply_call q1 q2 ;;
    c <- quaternion_conjugate_call q1 ;;
    r <- quaternion_multiply_call (array4 m) (array4 c) ;;
    Ok (take3 r).

(** The [Vector3] message with the entries of an array of shape (3,). *)
Definition Vector3_of (v : vec3) : Vector3 := mkVector3 (c0 v) (c1 v) (c2 v).

(** ** Names *)

(** The names the module binds at top level: the imports of lines 5 to 11
    and the definitions of the file. *)
Definition module_names : list string :=
  ["np"; "rospy"; "tf2_ros"; "trf"; "Odometry";
   "Transform"; "Pose"; "PoseWithCovariance"; "Twist"; "TwistWithCovariance";
   "ModelState"; "ModelStates";
   "transform_between_poses"; "pose2np"; "np2trf"; "np2pose";
   "transform_vector"; "OdometryPublisher"]%string.

(** Reading a global name. *)
Definition global (x : string) : result unit :=
  if existsb (String.eqb x) module_names then Ok done else Raise NameError.

(** Reading a name where an index is wanted, in a function whose local
    names [env] hold integers: a local name first, then a global one, which
    is no integer. *)
Fixpoint integer (env : list (string * nat)) (x : string) : result nat :=
  match env with
  | [] => (_ <- global x ;; Raise TypeError)
  | (y, i) :: env' => if String.eqb y x then Ok i else integer env' x
  end.

(** ** The node *)

Record OdometryPublisher : Type := mkOdometryPublisher {
  model_state : option Pose;
  model_twist : option Twist;
  initial_state : option PoseStamped;
  bot_pose : option PoseStamped        (* [None]: the attribute is not set *)
}.

(** What the node sends. *)
Inductive output : Type :=
| StaticTransform (t : PoseStamped)    (* self.brStatic.sendTransform(t) *)
| Broadcast (t : TransformStamped)     (* self.br.sendTransform(t) *)
| Publish (odom : Odometry).           (* self.odom_pub.publish(odom) *)

(** [__init__]: the three fields are set to [None]; the next line reads
    [PoseStamped], which nothing binds, and the constructor raises.  What
    it leaves of the node, and that it raised. *)
Definition init : OdometryPublisher * result unit :=
  (mkOdometryPublisher None None None None, Raise NameError).

(** The loop of [main] has two statements.  The first, "Get the initial
    pose": with no reference yet and a sample there, its first line is
    [t = PoseStamped()], and [PoseStamped] is bound nowhere.  The lines
    after it, which would fill [t], store it in [initial_state] and send
    it, are not reached.  The result is the node afterwards, what was sent,
    and whether the statement raised. *)
Definition get_initial_pose (self : OdometryPublisher)
  : OdometryPublisher * list output * result unit :=
  match initial_state self with
  | None =>
      match model_state self with
      | Some _ => (self, [], Raise NameError)
      | None => (self, [], Ok done)
      end
  | Some _ => (self, [], Ok done)
  end.

(** The second, "Publish the state of the puzzlebot": with a sample there,
    its first line is [t = TransformStamped()], and [TransformStamped] is
    bound nowhere.  The lines after it, down to [self.odom_pub.publish],
    are not reached.  It writes no field of the node; the result is what
    was sent and whether the statement raised. *)
Definition publish_state (self : OdometryPublisher)
  : list output * result unit :=
  match model_state self with
  | Some _ => ([], Raise NameError)
  | None => ([], Ok done)
  end.

(** One pass through the body of the loop of [main]: the node afterwards,
    what was sent, and whether the pass raised.  An exception of the first
    statement ends the pass. *)
Definition main_iteration (self : OdometryPublisher)
  : OdometryPublisher * list output * result unit :=
  let '(self, sent, r) := get_initial_pose self in
  match r with
  | Raise e => (self, sent, Raise e)
  | Ok _ =>
      let '(sent', r) := publish_state self in
      (self, sent ++ sent', r)
  end.

(** [list.index]: position of the first occurrence. *)
Fixpoint index (x : string) (l : list string) : result nat :=
  match l with
  | [] => Raise ValueError
  | y :: l' => if String.eqb y x then Ok O else (i <- index x l' ;; Ok (S i))
  end.

(** [l[i]] on a list *)
Definition subscript {A : Type} (l : list A) (i : nat) : result A :=
  match nth_error l i with
  | Some a => Ok a
  | None => Raise IndexError
  end.

(** [callback(self, data)]: the node afterwards and whether the call
    raised.  The only local name that holds an index is [aux_idx]; the two
    subscripts read [ux_idx]. *)
Definition callback (data : ModelStates) (self : OdometryPublisher)
  : OdometryPublisher * result unit :=
  match index "puzzlebot" (name data) with
  | Raise e => (self, Raise e)
  | Ok aux_idx =>
      let env := [("aux_idx"%string, aux_idx)] in
      match (ux_idx <- integer env "ux_idx" ;; subscript (pose data) ux_idx) with
      | Raise e => (self, Raise e)
      | Ok p =>
          let self := mkOdometryPublisher (Some p) (model_twist self)
                        (initial_state self) (bot_pose self) in
          match (ux_idx <- integer env "ux_idx" ;; subscript (twist data) ux_idx) with
          | Raise e => (self, Raise e)
          | Ok tw =>
              (mkOdometryPublisher (model_state self) (Some tw)
                 (initial_state self) (bot_pose self), Ok done)
          end
      end
  end.

(** ** The running node

    [rospy] calls [callback] from the subscriber's thread for every message
    and reports an exception of the callback without stopping anything;
    [main] loops in the main thread, and an exception there ends the loop
    and with it the process (the [except] clause at the end of the file
    names other exceptions).  [callback] raises before its first
    assignment, so a pass of [main] never sees it half done. *)

Inductive event : Type :=
| Deliver (data : ModelStates)   (* a message on gazebo/model_states *)
| Iterate (now : Time).          (* one pass of the loop of main *)

Record node : Type := mkNode {
  self_of : OdometryPublisher;   (* the object [aux] *)
  sent_of : list output;         (* everything sent so far *)
  looping : bool                 (* [main] is in its loop *)
}.

Definition step (n : node) (ev : event) : node :=
  if looping n then
    match ev with
    | Deliver data =>
        let '(self, _) := callback data (self_of n) in
        mkNode self (sent_of n) true
    | Iterate _ =>
        let '(self, sent, r) := main_iteration (self_of n) in
        mkNode self (sent_of n ++ sent)
          match r with
          | Ok _ => true
          | Raise _ => false
          end
    end
  else n.

Definition run (evs : list event) (n : node) : node := fold_left step evs n.

(** The node after [aux = OdometryPublisher()]: [__init__] has raised, and
    [aux.main()] is not called. *)
Definition start : node :=
  mkNode (fst init) []
    match snd init with
    | Ok _ => true
    | Raise _ => false
    end.

(** * Notions used in the statements *)

(** ** Rotations as quaternions *)

(** The homogeneous matrix with the rotation of the quaternion [u] (written
    without the normalisation, which a unit [u] does not need) and the
    translation [p]. *)
Definition rigid (u : vec4) (p : vec3) : mat4 :=
  let '(V4 x y z w) := u in
  M4 (V4 (w * w + x * x - y * y - z * z) (2 * (x * y - z * w)) (2 * (x * z + y * w)) (c0 p))
     (V4 (2 * (x * y + z * w)) (w * w - x * x + y * y - z * z) (2 * (y * z - x * w)) (c1 p))
     (V4 (2 * (x * z - y * w)) (2 * (y * z + x * w)) (w * w - x * x - y * y + z * z) (c2 p))
     (V4 0 0 0 1).

(** The rotation block of [m] applied to [r], plus [p]. *)
Definition move (m : mat4) (r p : vec3) : vec3 :=
  V3 (at4 m 0 0 * c0 r + at4 m 0 1 * c1 r + at4 m 0 2 * c2 r + c0 p)
     (at4 m 1 0 * c0 r + at4 m 1 1 * c1 r + at4 m 1 2 * c2 r + c1 p)
     (at4 m 2 0 * c0 r + at4 m 2 1 * c1 r + at4 m 2 2 * c2 r + c2 p).

(** The quaternion that [trf.quaternion_matrix] turns into a matrix: [q]
    normalised, or the identity rotation below [_EPS]. *)
Definition unitq (q : vec4) : vec4 :=
  if Rlt_dec (dot4 q q) trf._EPS then V4 0 0 0 1
  else scale4 (/ sqrt (dot4 q q)) q.

(** A [Vector3] message as the array [[x, y, z]]. *)
Definition Vector3_array (v : Vector3) : vec3 := V3 (vx v) (vy v) (vz v).

(** The translation of the inverse motion: [- Rt p]. *)
Definition back (u : vec4) (p : vec3) : vec3 :=
  move (rigid (trf.quaternion_conjugate u) (V3 0 0 0))
       (V3 (- c0 p) (- c1 p) (- c2 p)) (V3 0 0 0).

(** The component of a unit quaternion that [trf.quaternion_from_matrix]
    divides by, and so makes positive: the scalar part when the trace
    branch is taken, else the vector component whose diagonal entry wins
    the two comparisons. *)
Definition pivot (u : vec4) : R :=
  let '(V4 x y z w) := u in
  if Rlt_dec 1 (4 * w * w) then w
  else if Rlt_dec (x * x) (y * y) then
         (if Rlt_dec (y * y) (z * z) then z else y)
       else
         (if Rlt_dec (x * x) (z * z) then z else x).

(** The [Quaternion] message with the entries of the array [q]. *)
Definition Quaternion_of (q : vec4) : Quaternion :=
  mkQuaternion (get4 q 0) (get4 q 1) (get4 q 2) (get4 q 3).

(** [isinstance(o, Pose)], [isinstance(o, Transform)] *)
Definition isinstance_Pose (o : pyobj) : bool :=
  match o with
  | PoseObj _ => true
  | _ => false
  end.

Definition isinstance_Transform (o : pyobj) : bool :=
  match o with
  | TransformObj _ => true
  | _ => false
  end.

(** The pose at the origin with the identity orientation. *)
Definition identity_pose : Pose := mkPose (mkVector3 0 0 0) (mkQuaternion 0 0 0 1).

(** ** The quaternion sandwich, in the words of the specification *)

Module Hamilton.

Definition dot3 (a b : vec3) : R := c0 a * c0 b + c1 a * c1 b + c2 a * c2 b.

Definition cross (a b : vec3) : vec3 :=
  V3 (c1 a * c2 b - c2 a * c1 b)
     (c2 a * c0 b - c0 a * c2 b)
     (c0 a * c1 b - c1 a * c0 b).

(** The Hamilton product of two quaternions kept scalar-last: the scalar
    part is [wp wq - vp . vq], the vector part [wp vq + wq vp + vp x vq]. *)
Definition product (p q : vec4) : vec4 :=
  let vp := take3 p in
  let vq := take3 q in
  let wp := e3 p in
  let wq := e3 q in
  let vxv := cross vp vq in
  V4 (wp * c0 vq + wq * c0 vp + c0 vxv)
     (wp * c1 vq + wq * c1 vp + c1 vxv)
     (wp * c2 vq + wq * c2 vp + c2 vxv)
     (wp * wq - dot3 vp vq).




End Hamilton.

(** ** The analytic inverse of a rigid transform, in the words of the
    specification *)

(** [[Rt, -Rt t], [0, 1]] *)
Definition analytic_inverse (g : mat4) : mat4 :=
  buildm (fun i j =>
    if (i <? 3)%nat then
      if (j <? 3)%nat then at4 g j i
      else - (at4 g 0 i * at4 g 0 3 + at4 g 1 i * at4 g 1 3 + at4 g 2 i * at4 g 2 3)
    else
      if (j <? 3)%nat then 0 else 1).

(** The dot product of columns [i] and [j] of the rotation block. *)
Definition columns (g : mat4) (i j : nat) : R :=
  at4 g 0 i * at4 g 0 j + at4 g 1 i * at4 g 1 j + at4 g 2 i * at4 g 2 j.

(** A rigid homogeneous transform: orthonormal rotation block, bottom row
    [[0, 0, 0, 1]]. *)
Definition rigid_transform (g : mat4) : Prop :=
  row3 g = V4 0 0 0 1
  /\ columns g 0 0 = 1 /\ columns g 1 1 = 1 /\ columns g 2 2 = 1
  /\ columns g 0 1 = 0 /\ columns g 0 2 = 0 /\ columns g 1 2 = 0.

(** ** Poses, transforms and other arguments *)

(** Squared norm of a [Quaternion] message. *)
Definition norm2 (q : Quaternion) : R := dot4 (quat_array q) (quat_array q).

(** The quaternion and the translation of a [Pose] or a [Transform]. *)
Definition quaternion_of (o : pyobj) : option Quaternion :=
  match o with
  | PoseObj p => Some (orientation p)
  | TransformObj t => Some (rotation t)
  | _ => None
  end.

Definition translation_of (o : pyobj) : option Vector3 :=
  match o with
  | PoseObj p => Some (position p)
  | TransformObj t => Some (translation t)
  | _ => None
  end.

(** ** What the node has sent *)

(** The static announcements among what was sent. *)
Definition statics (l : list output) : list PoseStamped :=
  flat_map (fun o => match o with StaticTransform t => [t] | _ => [] end) l.


(** ** Further notions *)

(** The unit quaternion whose rotation [pose2np] puts in its matrix: the
    argument's quaternion normalised, the identity for what is no [Pose]
    and no [Transform]. *)
Definition unit_quaternion (o : pyobj) : vec4 :=
  match o with
  | PoseObj p => unitq (quat_array (orientation p))
  | TransformObj t => unitq (quat_array (rotation t))
  | _ => V4 0 0 0 1
  end.

(** The translation [pose2np] puts in its matrix. *)
Definition origin (o : pyobj) : vec3 :=
  match o with
  | PoseObj p => Vector3_array (position p)
  | TransformObj t => Vector3_array (translation t)
  | _ => V3 0 0 0
  end.

(** The transform that moves nothing. *)
Definition identity_transform : Transform :=
  mkTransform (mkVector3 0 0 0) (mkQuaternion 0 0 0 1).

(** The opposite quaternion, and a quaternion times a number. *)
Definition Quaternion_neg (q : Quaternion) : Quaternion :=
  mkQuaternion (- qx q) (- qy q) (- qz q) (- qw q).

Definition Quaternion_scale (k : R) (q : Quaternion) : Quaternion :=
  mkQuaternion (k * qx q) (k * qy q) (k * qz q) (k * qw q).

(** The rotation block of [m] applied to [v], and its transpose applied to
    [v]. *)
Definition rotate (m : mat4) (v : vec3) : vec3 :=
  V3 (at4 m 0 0 * c0 v + at4 m 0 1 * c1 v + at4 m 0 2 * c2 v)
     (at4 m 1 0 * c0 v + at4 m 1 1 * c1 v + at4 m 1 2 * c2 v)
     (at4 m 2 0 * c0 v + at4 m 2 1 * c1 v + at4 m 2 2 * c2 v).

Definition rotate_back (m : mat4) (v : vec3) : vec3 :=
  V3 (at4 m 0 0 * c0 v + at4 m 1 0 * c1 v + at4 m 2 0 * c2 v)
     (at4 m 0 1 * c0 v + at4 m 1 1 * c1 v + at4 m 2 1 * c2 v)
     (at4 m 0 2 * c0 v + at4 m 1 2 * c1 v + at4 m 2 2 * c2 v).

(** * Matrix algebra *)

Lemma V4_eq (a b c d a' b' c' d' : R) :
  a = a' -> b = b' -> c = c' -> d = d' -> V4 a b c d = V4 a' b' c' d'.
Proof. intros; subst; reflexivity. Qed.

Lemma M4_eq (a b c d a' b' c' d' : vec4) :
  a = a' -> b = b' -> c = c' -> d = d' -> M4 a b c d = M4 a' b' c' d'.
Proof. intros; subst; reflexivity. Qed.

(** Unfold the array operations down to the entries. *)
Ltac entries :=
  cbv [np.dot np.det np.cofactor np.det3 np.skip np.sign Nat.even Nat.add
       Nat.ltb Nat.leb Nat.eqb andb
       set_block3 set_col3 outer trace take3 scale4
       buildm build4 dot4 getrow getcol at4 get4 set4 eye4
       e0 e1 e2 e3 row0 row1 row2 row3].

Ltac entries_in H :=
  cbv [np.dot np.det np.cofactor np.det3 np.skip np.sign Nat.even Nat.add
       Nat.ltb Nat.leb Nat.eqb andb
       set_block3 set_col3 outer trace take3 scale4
       buildm build4 dot4 getrow getcol at4 get4 set4 eye4
       e0 e1 e2 e3 row0 row1 row2 row3] in H.

(** Split an equation between two matrices into its sixteen entries. *)
Ltac by_entries := apply M4_eq; apply V4_eq.

Ltac destruct_mat m :=
  let r0 := fresh "r" in let r1 := fresh "r" in
  let r2 := fresh "r" in let r3 := fresh "r" in
  destruct m as [r0 r1 r2 r3];
  destruct r0 as [? ? ? ?]; destruct r1 as [? ? ? ?];
  destruct r2 as [? ? ? ?]; destruct r3 as [? ? ? ?].

Lemma dot_assoc (a b c : mat4) :
  np.dot a (np.dot b c) = np.dot (np.dot a b) c.
Proof.
  destruct_mat a; destruct_mat b; destruct_mat c.
  entries; by_entries; ring.
Qed.

Lemma dot_eye_l (a : mat4) : np.dot eye4 a = a.
Proof. destruct_mat a; entries; by_entries; ring. Qed.

Lemma dot_eye_r (a : mat4) : np.dot a eye4 = a.
Proof. destruct_mat a; entries; by_entries; ring. Qed.

(** The adjugate over the determinant is a two-sided inverse. *)
Lemma linalg_inv_inverse (m : mat4) :
  np.det m <> 0 ->
  exists k, np.linalg_inv m = Ok k /\ np.dot m k = eye4 /\ np.dot k m = eye4.
Proof.
  intros Hdet. unfold np.linalg_inv.
  destruct (Req_dec_T (np.det m) 0) as [E | _]; [contradiction |].
  eexists; split; [reflexivity |].
  destruct_mat m. entries_in Hdet.
  split; entries; by_entries; field;
    intro E; apply Hdet; rewrite <- E; ring.
Qed.

(** A left inverse of a regular matrix is what [numpy.linalg.inv]
    returns. *)
Lemma linalg_inv_unique (m h : mat4) :
  np.det m <> 0 -> np.dot h m = eye4 -> np.linalg_inv m = Ok h.
Proof.
  intros Hdet Hh.
  destruct (linalg_inv_inverse m Hdet) as (k & Hk & Hmk & _).
  rewrite Hk. f_equal.
  rewrite <- (dot_eye_l k), <- Hh, <- dot_assoc, Hmk, dot_eye_r.
  reflexivity.
Qed.

(** * Normalised quaternions and their matrices *)

Lemma EPS_pos : 0 < trf._EPS.
Proof.
  unfold trf._EPS. apply Rmult_lt_0_compat; [| lra].
  apply Rinv_0_lt_compat, pow_lt; lra.
Qed.

Lemma EPS_lt_1 : trf._EPS < 1.
Proof.
  unfold trf._EPS.
  assert (H : 2 ^ 52 = 4 * 2 ^ 50) by (simpl; ring).
  assert (H1 : 1 <= 2 ^ 50) by (apply pow_R1_Rle; lra).
  rewrite H.
  apply Rmult_lt_reg_l with (4 * 2 ^ 50); [lra |].
  field_simplify; lra.
Qed.

Lemma unitq_norm (q : vec4) : dot4 (unitq q) (unitq q) = 1.
Proof.
  unfold unitq. destruct (Rlt_dec (dot4 q q) trf._EPS) as [_ | Hn].
  - entries. ring.
  - assert (Hpos : 0 < dot4 q q) by (pose proof EPS_pos; lra).
    pose proof (sqrt_lt_R0 _ Hpos) as Hs.
    pose proof (sqrt_sqrt (dot4 q q) (Rlt_le _ _ Hpos)) as Hss.
    set (r := sqrt (dot4 q q)) in *.
    destruct q as [x y z w]. entries. entries_in Hss.
    transitivity ((x * x + y * y + z * z + w * w) * / (r * r)); [field; lra |].
    rewrite <- Hss. field; lra.
Qed.

Lemma unitq_unit (q : vec4) : dot4 q q = 1 -> unitq q = q.
Proof.
  intros H. unfold unitq. rewrite H.
  destruct (Rlt_dec 1 trf._EPS) as [Hlt | _].
  - pose proof EPS_lt_1. lra.
  - rewrite sqrt_1. destruct q as [x y z w]. entries. apply V4_eq; field.
Qed.

Lemma scaled_product (a b s r n : R) :
  0 < n -> s * s = 2 / n -> r * r = n ->
  a * s * (b * s) = 2 * (a * / r * (b * / r)).
Proof.
  intros Hn Hs Hr.
  assert (r <> 0) by (intro; subst r; lra).
  replace (a * s * (b * s)) with (a * b * (s * s)) by ring.
  rewrite Hs, <- Hr. field. assumption.
Qed.

(** What [trf.quaternion_matrix] returns, entry by entry. *)
Lemma quaternion_matrix_rigid (q : vec4) :
  trf.quaternion_matrix q = rigid (unitq q) (V3 0 0 0).
Proof.
  pose proof (unitq_norm q) as Hu. revert Hu.
  unfold trf.quaternion_matrix, unitq.
  destruct (Rlt_dec (dot4 q q) trf._EPS) as [_ | Hn]; intros Hu.
  - entries. cbv [rigid c0 c1 c2]. by_entries; ring.
  - assert (Hpos : 0 < dot4 q q) by (pose proof EPS_pos; lra).
    assert (Hs : sqrt (2 / dot4 q q) * sqrt (2 / dot4 q q) = 2 / dot4 q q).
    { apply sqrt_sqrt. apply Rlt_le, Rdiv_lt_0_compat; lra. }
    pose proof (sqrt_sqrt (dot4 q q) (Rlt_le _ _ Hpos)) as Hr.
    set (s := sqrt (2 / dot4 q q)) in *.
    set (r := sqrt (dot4 q q)) in *.
    set (n := dot4 q q) in *.
    destruct q as [x y z w]. entries_in Hu. entries. cbv [rigid c0 c1 c2].
    rewrite !(scaled_product _ _ s r n Hpos Hs Hr).
    by_entries; lra.
Qed.

Lemma rigid_translation (u : vec4) (p : vec3) (a b c : R) :
  set_col3 (rigid u p) a b c = rigid u (V3 a b c).
Proof. destruct u as [x y z w]. reflexivity. Qed.

Lemma rigid_block (u : vec4) (p : vec3) :
  set_block3 eye4 (rigid u p) = rigid u (V3 0 0 0).
Proof. destruct u as [x y z w]. reflexivity. Qed.

Lemma pose2np_Pose (p : Pose) :
  pose2np (PoseObj p)
  = rigid (unitq (quat_array (orientation p))) (Vector3_array (position p)).
Proof.
  unfold pose2np.
  rewrite quaternion_matrix_rigid, rigid_block, rigid_translation.
  reflexivity.
Qed.

Lemma pose2np_Transform (t : Transform) :
  pose2np (TransformObj t)
  = rigid (unitq (quat_array (rotation t))) (Vector3_array (translation t)).
Proof.
  unfold pose2np.
  rewrite quaternion_matrix_rigid, rigid_translation.
  reflexivity.
Qed.

Lemma norm_multiply (u v : vec4) :
  dot4 (trf.quaternion_multiply u v) (trf.quaternion_multiply u v)
  = dot4 u u * dot4 v v.
Proof.
  destruct u as [x1 y1 z1 w1], v as [x2 y2 z2 w2].
  cbv [trf.quaternion_multiply]. entries. ring.
Qed.

Lemma norm_conjugate (u : vec4) :
  dot4 (trf.quaternion_conjugate u) (trf.quaternion_conjugate u) = dot4 u u.
Proof. destruct u as [x y z w]. cbv [trf.quaternion_conjugate]. entries. ring. Qed.

(** Composing two rigid motions multiplies their quaternions. *)
Lemma rigid_dot (u v : vec4) (p r : vec3) :
  np.dot (rigid u p) (rigid v r)
  = rigid (trf.quaternion_multiply u v) (move (rigid u p) r p).
Proof.
  destruct u as [x1 y1 z1 w1], v as [x2 y2 z2 w2].
  destruct p as [p0 p1 p2], r as [r0 r1 r2].
  cbv [trf.quaternion_multiply rigid move c0 c1 c2]. entries.
  by_entries; ring.
Qed.

Lemma det_rigid (u : vec4) (p : vec3) :
  np.det (rigid u p) = dot4 u u * dot4 u u * dot4 u u.
Proof.
  destruct u as [x y z w], p as [p0 p1 p2].
  cbv [rigid c0 c1 c2]. entries. ring.
Qed.

Lemma rigid_inverse_left (u : vec4) (p : vec3) :
  dot4 u u = 1 ->
  np.dot (rigid (trf.quaternion_conjugate u) (back u p)) (rigid u p) = eye4.
Proof.
  intros Hu. rewrite rigid_dot.
  destruct u as [x y z w], p as [a b c]. entries_in Hu.
  assert (Hu2 : (x * x + y * y + z * z + w * w) * (x * x + y * y + z * z + w * w) = 1)
    by (rewrite Hu; ring).
  cbv [trf.quaternion_conjugate trf.quaternion_multiply rigid move back c0 c1 c2].
  entries. by_entries; try ring; try (rewrite <- Hu2; ring).
Qed.

Lemma linalg_inv_rigid (u : vec4) (p : vec3) :
  dot4 u u = 1 ->
  np.linalg_inv (rigid u p) = Ok (rigid (trf.quaternion_conjugate u) (back u p)).
Proof.
  intros Hu. apply linalg_inv_unique.
  - rewrite det_rigid, Hu. lra.
  - apply rigid_inverse_left, Hu.
Qed.

Lemma rigid_sign (s : R) (u : vec4) (p : vec3) :
  s = 1 \/ s = -1 -> rigid (scale4 s u) p = rigid u p.
Proof.
  intros [-> | ->]; destruct u as [x y z w]; cbv [rigid scale4 e0 e1 e2 e3];
    by_entries; ring.
Qed.

Lemma norm_sign (s : R) (u : vec4) :
  s = 1 \/ s = -1 -> dot4 (scale4 s u) (scale4 s u) = dot4 u u.
Proof. intros [-> | ->]; destruct u as [x y z w]; entries; ring. Qed.

(** * The quaternion of a rotation matrix *)

Lemma half_over_sqrt_pivot (t c : R) :
  t = 4 * c * c -> c <> 0 ->
  exists s, (s = 1 \/ s = -1) /\ 0 < c * s
            /\ trf.half_over_sqrt (t * 1) = Ok (s / (4 * c)).
Proof.
  intros -> Hc. unfold trf.half_over_sqrt.
  destruct (Rlt_dec (4 * c * c * 1) 0) as [Hneg | _]; [nra |].
  destruct (Rlt_dec 0 c) as [Hpos | Hnpos].
  - exists 1. split; [auto | split; [lra |]].
    replace (4 * c * c * 1) with ((2 * c) * (2 * c)) by ring.
    rewrite sqrt_square by lra.
    destruct (Req_dec_T (2 * c) 0) as [E | _]; [lra |].
    f_equal. replace 0.5 with (/ 2) by lra. field. assumption.
  - exists (-1). split; [auto | split; [lra |]].
    replace (4 * c * c * 1) with ((- (2 * c)) * (- (2 * c))) by ring.
    rewrite sqrt_square by lra.
    destruct (Req_dec_T (- (2 * c)) 0) as [E | _]; [lra |].
    f_equal. replace 0.5 with (/ 2) by lra. field. assumption.
Qed.

Lemma entry_scale (E a c s : R) :
  E = 4 * a * c -> c <> 0 -> E * (s / (4 * c)) = a * s.
Proof. intros -> Hc. field. assumption. Qed.

(** The five paths through [trf.quaternion_from_matrix]. *)
Lemma quaternion_from_matrix_trace (M : mat4) :
  trace M > at4 M 3 3 ->
  trf.quaternion_from_matrix M
  = (s <- trf.half_over_sqrt (trace M * at4 M 3 3) ;;
     Ok (scale4 s (V4 (at4 M 2 1 - at4 M 1 2) (at4 M 0 2 - at4 M 2 0)
                      (at4 M 1 0 - at4 M 0 1) (trace M)))).
Proof.
  intros H. unfold trf.quaternion_from_matrix.
  destruct (Rgt_dec (trace M) (at4 M 3 3)); [reflexivity | contradiction].
Qed.

Lemma quaternion_from_matrix_0 (M : mat4) :
  ~ trace M > at4 M 3 3 -> ~ at4 M 1 1 > at4 M 0 0 -> ~ at4 M 2 2 > at4 M 0 0 ->
  trf.quaternion_from_matrix M
  = (s <- trf.half_over_sqrt
            ((at4 M 0 0 - (at4 M 1 1 + at4 M 2 2) + at4 M 3 3) * at4 M 3 3) ;;
     Ok (scale4 s (V4 (at4 M 0 0 - (at4 M 1 1 + at4 M 2 2) + at4 M 3 3)
                      (at4 M 0 1 + at4 M 1 0) (at4 M 2 0 + at4 M 0 2)
                      (at4 M 2 1 - at4 M 1 2)))).
Proof.
  intros H1 H2 H3. unfold trf.quaternion_from_matrix.
  destruct (Rgt_dec (trace M) (at4 M 3 3)); [contradiction |].
  destruct (Rgt_dec (at4 M 1 1) (at4 M 0 0)); [contradiction |].
  destruct (Rgt_dec (at4 M 2 2) (at4 M 0 0)); [contradiction |].
  reflexivity.
Qed.

Lemma quaternion_from_matrix_1 (M : mat4) :
  ~ trace M > at4 M 3 3 -> at4 M 1 1 > at4 M 0 0 -> ~ at4 M 2 2 > at4 M 1 1 ->
  trf.quaternion_from_matrix M
  = (s <- trf.half_over_sqrt
            ((at4 M 1 1 - (at4 M 2 2 + at4 M 0 0) + at4 M 3 3) * at4 M 3 3) ;;
     Ok (scale4 s (V4 (at4 M 0 1 + at4 M 1 0)
                      (at4 M 1 1 - (at4 M 2 2 + at4 M 0 0) + at4 M 3 3)
                      (at4 M 1 2 + at4 M 2 1)
                      (at4 M 0 2 - at4 M 2 0)))).
Proof.
  intros H1 H2 H3. unfold trf.quaternion_from_matrix.
  destruct (Rgt_dec (trace M) (at4 M 3 3)); [contradiction |].
  destruct (Rgt_dec (at4 M 1 1) (at4 M 0 0)); [| contradiction].
  destruct (Rgt_dec (at4 M 2 2) (at4 M 1 1)); [contradiction |].
  reflexivity.
Qed.

Lemma quaternion_from_matrix_2 (M : mat4) :
  ~ trace M > at4 M 3 3 ->
  (at4 M 1 1 > at4 M 0 0 /\ at4 M 2 2 > at4 M 1 1)
  \/ (~ at4 M 1 1 > at4 M 0 0 /\ at4 M 2 2 > at4 M 0 0) ->
  trf.quaternion_from_matrix M
  = (s <- trf.half_over_sqrt
            ((at4 M 2 2 - (at4 M 0 0 + at4 M 1 1) + at4 M 3 3) * at4 M 3 3) ;;
     Ok (scale4 s (V4 (at4 M 2 0 + at4 M 0 2) (at4 M 1 2 + at4 M 2 1)
                      (at4 M 2 2 - (at4 M 0 0 + at4 M 1 1) + at4 M 3 3)
                      (at4 M 1 0 - at4 M 0 1)))).
Proof.
  intros H1 H2. unfold trf.quaternion_from_matrix.
  destruct (Rgt_dec (trace M) (at4 M 3 3)); [contradiction |].
  destruct (Rgt_dec (at4 M 1 1) (at4 M 0 0)).
  - destruct (Rgt_dec (at4 M 2 2) (at4 M 1 1)); [reflexivity | tauto].
  - destruct (Rgt_dec (at4 M 2 2) (at4 M 0 0)); [reflexivity | tauto].
Qed.

Ltac pivot_on c Hu :=
  let s := fresh "s" in
  let Hs := fresh "Hs" in
  let Hp := fresh "Hp" in
  let Hq := fresh "Hq" in
  let Hc := fresh "Hc" in
  let E := fresh "E" in
  entries;
  assert (Hc : c <> 0) by (intro E; rewrite E in *; lra);
  match goal with
  | |- context [trf.half_over_sqrt (?t * 1)] =>
      destruct (half_over_sqrt_pivot t c) as (s & Hs & Hp & Hq);
        [lra | exact Hc |];
      rewrite Hq; cbn [bind]; entries; exists s;
      split; [exact Hs | split];
      [ f_equal; apply V4_eq; (apply entry_scale; [lra | exact Hc])
      | cbv [pivot];
        repeat match goal with
               | |- context [Rlt_dec ?a ?b] => destruct (Rlt_dec a b)
               end; try exact Hp; exfalso; lra ]
  end.

(** On the matrix of a unit quaternion [u], [trf.quaternion_from_matrix]
    returns [u] or [-u], whichever has a positive pivot. *)
Lemma quaternion_from_matrix_rigid (u : vec4) (p : vec3) :
  dot4 u u = 1 ->
  exists s, (s = 1 \/ s = -1)
            /\ trf.quaternion_from_matrix (rigid u p) = Ok (scale4 s u)
            /\ 0 < pivot u * s.
Proof.
  intros Hu. destruct u as [x y z w], p as [p0 p1 p2]. entries_in Hu.
  set (M := rigid (V4 x y z w) (V3 p0 p1 p2)).
  destruct (Rgt_dec (trace M) (at4 M 3 3)) as [Ht | Ht].
  - rewrite (quaternion_from_matrix_trace M Ht).
    subst M. cbv [rigid c0 c1 c2] in *. entries_in Ht. pivot_on w Hu.
  - destruct (Rgt_dec (at4 M 1 1) (at4 M 0 0)) as [H1 | H1].
    + destruct (Rgt_dec (at4 M 2 2) (at4 M 1 1)) as [H2 | H2].
      * rewrite (quaternion_from_matrix_2 M Ht (or_introl (conj H1 H2))).
        subst M. cbv [rigid c0 c1 c2] in *.
        entries_in Ht; entries_in H1; entries_in H2. pivot_on z Hu.
      * rewrite (quaternion_from_matrix_1 M Ht H1 H2).
        subst M. cbv [rigid c0 c1 c2] in *.
        entries_in Ht; entries_in H1; entries_in H2. pivot_on y Hu.
    + destruct (Rgt_dec (at4 M 2 2) (at4 M 0 0)) as [H2 | H2].
      * rewrite (quaternion_from_matrix_2 M Ht (or_intror (conj H1 H2))).
        subst M. cbv [rigid c0 c1 c2] in *.
        entries_in Ht; entries_in H1; entries_in H2. pivot_on z Hu.
      * rewrite (quaternion_from_matrix_0 M Ht H1 H2).
        subst M. cbv [rigid c0 c1 c2] in *.
        entries_in Ht; entries_in H1; entries_in H2. pivot_on x Hu.
Qed.

(** * Poses and transforms as rigid motions *)

Lemma quat_array_of (q : vec4) : quat_array (Quaternion_of q) = q.
Proof. destruct q as [x y z w]. reflexivity. Qed.

Lemma rigid_inverse_right (u : vec4) (p : vec3) :
  dot4 u u = 1 ->
  np.dot (rigid u p) (rigid (trf.quaternion_conjugate u) (back u p)) = eye4.
Proof.
  intros Hu.
  assert (Hdet : np.det (rigid u p) <> 0) by (rewrite det_rigid, Hu; lra).
  destruct (linalg_inv_inverse _ Hdet) as (k & Hk & Hmk & _).
  rewrite (linalg_inv_rigid u p Hu) in Hk. injection Hk as <-. exact Hmk.
Qed.

(** [np2trf] on a rigid motion. *)
Lemma np2trf_rigid (u : vec4) (p : vec3) (t : Transform) :
  dot4 u u = 1 ->
  exists s, (s = 1 \/ s = -1) /\ 0 < pivot u * s
            /\ np2trf (rigid u p) t
               = Ok (mkTransform (Vector3_of p) (Quaternion_of (scale4 s u))).
Proof.
  intros Hu.
  destruct (quaternion_from_matrix_rigid u p Hu) as (s & Hs & Hq & Hp).
  exists s. split; [exact Hs | split; [exact Hp |]].
  unfold np2trf. rewrite Hq. cbn [bind translation].
  destruct u as [x y z w], p as [p0 p1 p2]. reflexivity.
Qed.

Lemma np2pose_rigid (u : vec4) (p : vec3) (p0 : Pose) :
  dot4 u u = 1 ->
  exists s, (s = 1 \/ s = -1) /\ 0 < pivot u * s
            /\ np2pose (rigid u p) p0
               = Ok (mkPose (Vector3_of p) (Quaternion_of (scale4 s u))).
Proof.
  intros Hu.
  destruct (quaternion_from_matrix_rigid u p Hu) as (s & Hs & Hq & Hp).
  exists s. split; [exact Hs | split; [exact Hp |]].
  unfold np2pose. rewrite Hq. cbn [bind position].
  destruct u as [x y z w], p as [p0' p1 p2]. reflexivity.
Qed.

(** The matrix of the transform that [np2trf] writes is the matrix it was
    given. *)
Lemma pose2np_np2trf (u : vec4) (p : vec3) (s : R) :
  dot4 u u = 1 -> s = 1 \/ s = -1 ->
  pose2np (TransformObj (mkTransform (Vector3_of p) (Quaternion_of (scale4 s u))))
  = rigid u p.
Proof.
  intros Hu Hs. rewrite pose2np_Transform. cbn [rotation translation].
  rewrite quat_array_of, unitq_unit by (rewrite norm_sign; assumption).
  rewrite rigid_sign by assumption.
  destruct p as [p0 p1 p2]. reflexivity.
Qed.

(** ** The reference as [transform_between_poses] sees it *)

Lemma pose2np_other (o : pyobj) :
  isinstance_Pose o = false -> isinstance_Transform o = false -> pose2np o = eye4.
Proof. destruct o; intros H1 H2; try discriminate; reflexivity. Qed.

Lemma pose2np_identity_pose : pose2np (PoseObj identity_pose) = eye4.
Proof.
  rewrite pose2np_Pose. rewrite unitq_unit by (entries; cbn; ring).
  cbn. by_entries; ring.
Qed.

Lemma linalg_inv_eye : np.linalg_inv eye4 = Ok eye4.
Proof.
  apply linalg_inv_unique.
  - entries. lra.
  - apply dot_eye_l.
Qed.

(** With a first argument that is no [Pose] and no [Transform], the
    result is the follower pose itself, normalised. *)
Lemma transform_between_poses_other (o : pyobj) (pf : Pose) :
  isinstance_Pose o = false -> isinstance_Transform o = false ->
  let u := unitq (quat_array (orientation pf)) in
  exists s, (s = 1 \/ s = -1) /\ 0 < pivot u * s
            /\ transform_between_poses o (PoseObj pf)
               = Ok (mkTransform (position pf) (Quaternion_of (scale4 s u))).
Proof.
  intros H1 H2 u. unfold transform_between_poses.
  rewrite (pose2np_other o H1 H2), linalg_inv_eye. cbn [bind].
  rewrite dot_eye_l, pose2np_Pose. fold u.
  destruct (np2trf_rigid u (Vector3_array (position pf)) Transform_0
              (unitq_norm _)) as (s & Hs & Hp & Ht).
  exists s. split; [exact Hs | split; [exact Hp |]].
  rewrite Ht. destruct pf as [[a b c] q]. reflexivity.
Qed.

(** * The Hamilton product *)

Lemma hamilton_assoc (p q r : vec4) :
  Hamilton.product p (Hamilton.product q r)
  = Hamilton.product (Hamilton.product p q) r.
Proof.
  destruct p as [x1 y1 z1 w1], q as [x2 y2 z2 w2], r as [x3 y3 z3 w3].
  cbv [Hamilton.product Hamilton.cross Hamilton.dot3 take3 e0 e1 e2 e3 c0 c1 c2].
  apply V4_eq; ring.
Qed.

Lemma quaternion_multiply_hamilton (p q : vec4) :
  trf.quaternion_multiply p q = Hamilton.product p q.
Proof.
  destruct p as [x1 y1 z1 w1], q as [x0 y0 z0 w0].
  cbv [trf.quaternion_multiply Hamilton.product Hamilton.cross Hamilton.dot3
       take3 e0 e1 e2 e3 c0 c1 c2].
  apply V4_eq; ring.
Qed.

(** * Relative pose *)

(** C1.  For two poses whose quaternions have a nonzero norm,
    [transform_between_poses pb pf] returns a transform [t], and the matrix
    of [pb] times the matrix of [t] is the matrix of [pf]. *)
Theorem relative_pose_identity (pb pf : Pose) :
  norm2 (orientation pb) <> 0 ->
  norm2 (orientation pf) <> 0 ->
  exists t, transform_between_poses (PoseObj pb) (PoseObj pf) = Ok t
            /\ np.dot (pose2np (PoseObj pb)) (pose2np (TransformObj t))
               = pose2np (PoseObj pf).
Proof.
  intros _ _. unfold transform_between_poses. rewrite !pose2np_Pose.
  set (ub := unitq (quat_array (orientation pb))).
  set (uf := unitq (quat_array (orientation pf))).
  set (xb := Vector3_array (position pb)).
  set (xf := Vector3_array (position pf)).
  assert (Hb : dot4 ub ub = 1) by apply unitq_norm.
  assert (Hf : dot4 uf uf = 1) by apply unitq_norm.
  rewrite (linalg_inv_rigid ub xb Hb). cbn [bind].
  pose proof (rigid_dot (trf.quaternion_conjugate ub) uf (back ub xb) xf) as Hg.
  set (u := trf.quaternion_multiply (trf.quaternion_conjugate ub) uf) in *.
  set (x := move _ xf (back ub xb)) in *.
  assert (Hu : dot4 u u = 1).
  { unfold u. rewrite norm_multiply, norm_conjugate, Hb, Hf. ring. }
  rewrite Hg.
  destruct (np2trf_rigid u x Transform_0 Hu) as (s & Hs & _ & Ht).
  eexists. split; [exact Ht |].
  rewrite pose2np_np2trf by assumption.
  rewrite <- Hg, dot_assoc, rigid_inverse_right by assumption.
  apply dot_eye_l.
Qed.

Lemma relative_pose_identity_witness :
  let pb := mkPose (mkVector3 5 0 0) (mkQuaternion 0 0 0 1) in
  let pf := mkPose (mkVector3 5 1 0) (mkQuaternion 0 0 1 1) in
  norm2 (orientation pb) <> 0 /\ norm2 (orientation pf) <> 0
  /\ exists t, transform_between_poses (PoseObj pb) (PoseObj pf) = Ok t
               /\ np.dot (pose2np (PoseObj pb)) (pose2np (TransformObj t))
                  = pose2np (PoseObj pf).
Proof.
  intros pb pf.
  assert (Hb : norm2 (orientation pb) <> 0) by (cbv [norm2 dot4 quat_array pb orientation qx qy qz qw e0 e1 e2 e3]; lra).
  assert (Hf : norm2 (orientation pf) <> 0) by (cbv [norm2 dot4 quat_array pf orientation qx qy qz qw e0 e1 e2 e3]; lra).
  split; [exact Hb | split; [exact Hf |]].
  exact (relative_pose_identity pb pf Hb Hf).
Defined.

(** * Degenerate quaternions *)

Lemma quaternion_matrix_zero_norm (q : vec4) :
  dot4 q q = 0 -> trf.quaternion_matrix q = eye4.
Proof.
  intros H. unfold trf.quaternion_matrix. rewrite H.
  destruct (Rlt_dec 0 trf._EPS) as [_ | Hn]; [reflexivity |].
  pose proof EPS_pos. lra.
Qed.

(** C3, as the code has it.  For a pose or transform whose quaternion has
    zero norm, [pose2np] returns the matrix with the identity rotation and
    the translation of its argument; nothing is raised. *)
Theorem pose2np_zero_norm (o : pyobj) (q : Quaternion) (v : Vector3) :
  quaternion_of o = Some q ->
  translation_of o = Some v ->
  norm2 q = 0 ->
  pose2np o = M4 (V4 1 0 0 (vx v)) (V4 0 1 0 (vy v)) (V4 0 0 1 (vz v)) (V4 0 0 0 1).
Proof.
  intros Hq Hv Hn. unfold norm2 in Hn.
  destruct o; try discriminate; cbn in Hq, Hv;
    injection Hq as <-; injection Hv as <-;
    unfold pose2np; rewrite (quaternion_matrix_zero_norm _ Hn); reflexivity.
Qed.

Lemma pose2np_zero_norm_witness :
  let p := mkPose (mkVector3 1 2 3) (mkQuaternion 0 0 0 0) in
  quaternion_of (PoseObj p) = Some (orientation p)
  /\ translation_of (PoseObj p) = Some (position p)
  /\ norm2 (orientation p) = 0
  /\ pose2np (PoseObj p) = M4 (V4 1 0 0 1) (V4 0 1 0 2) (V4 0 0 1 3) (V4 0 0 0 1).
Proof.
  intros p.
  assert (Hn : norm2 (orientation p) = 0)
    by (cbv [norm2 dot4 quat_array p orientation qx qy qz qw e0 e1 e2 e3]; lra).
  split; [reflexivity | split; [reflexivity | split; [exact Hn |]]].
  exact (pose2np_zero_norm (PoseObj p) _ _ eq_refl eq_refl Hn).
Defined.

(** C3, as the specification has it, fails: on the pose at (1, 2, 3) with
    the quaternion (0, 0, 0, 0), [pose2np] returns a matrix. *)
Lemma pose2np_zero_quaternion_returns :
  pose2np (PoseObj (mkPose (mkVector3 1 2 3) (mkQuaternion 0 0 0 0)))
  = M4 (V4 1 0 0 1) (V4 0 1 0 2) (V4 0 0 1 3) (V4 0 0 0 1).
Proof.
  unfold pose2np. rewrite quaternion_matrix_zero_norm; [reflexivity |].
  cbv [dot4 quat_array orientation qx qy qz qw e0 e1 e2 e3]. lra.
Qed.

(** * Vectors between frames *)

Lemma V3_eq (a b c a' b' c' : R) :
  a = a' -> b = b' -> c = c' -> V3 a b c = V3 a' b' c'.
Proof. intros; subst; reflexivity. Qed.



(** * Round trip through the matrix *)

Lemma unitq_scaled (q : vec4) :
  trf._EPS <= dot4 q q -> unitq q = scale4 (/ sqrt (dot4 q q)) q.
Proof.
  intros H. unfold unitq.
  destruct (Rlt_dec (dot4 q q) trf._EPS); [lra | reflexivity].
Qed.

(** C7, as the code has it.  For a pose whose quaternion [q] has a squared
    norm of at least [_EPS], [pose2np] followed by [np2pose] returns the
    translation unchanged and [q] divided by its norm, times the sign that
    makes the pivot positive. *)
Theorem round_trip_normalised (p p0 : Pose) :
  let q := quat_array (orientation p) in
  trf._EPS <= dot4 q q ->
  exists s,
    (s = 1 \/ s = -1)
    /\ 0 < pivot (scale4 (/ sqrt (dot4 q q)) q) * s
    /\ np2pose (pose2np (PoseObj p)) p0
       = Ok (mkPose (position p)
               (Quaternion_of (scale4 s (scale4 (/ sqrt (dot4 q q)) q)))).
Proof.
  intros q Hq. rewrite pose2np_Pose. fold q.
  rewrite <- (unitq_scaled q Hq).
  destruct (np2pose_rigid (unitq q) (Vector3_array (position p)) p0
              (unitq_norm q)) as (s & Hs & Hp & Hr).
  exists s. split; [exact Hs | split; [exact Hp |]].
  rewrite Hr. destruct p as [[a b c] o]. reflexivity.
Qed.

Lemma round_trip_normalised_witness :
  let p := mkPose (mkVector3 1 2 3) (mkQuaternion 0 0 0 1) in
  let q := quat_array (orientation p) in
  trf._EPS <= dot4 q q
  /\ exists s,
       (s = 1 \/ s = -1)
       /\ 0 < pivot (scale4 (/ sqrt (dot4 q q)) q) * s
       /\ np2pose (pose2np (PoseObj p)) Pose_0
          = Ok (mkPose (position p)
                  (Quaternion_of (scale4 s (scale4 (/ sqrt (dot4 q q)) q)))).
Proof.
  intros p q.
  assert (Hq : trf._EPS <= dot4 q q).
  { cbv [q p dot4 quat_array orientation qx qy qz qw e0 e1 e2 e3].
    pose proof EPS_lt_1. lra. }
  split; [exact Hq |].
  exact (round_trip_normalised p Pose_0 Hq).
Defined.

Lemma Quaternion_eq (a b c d a' b' c' d' : R) :
  a = a' -> b = b' -> c = c' -> d = d' ->
  mkQuaternion a b c d = mkQuaternion a' b' c' d'.
Proof. intros; subst; reflexivity. Qed.

Lemma sqrt_4 : sqrt 4 = 2.
Proof. replace 4 with (2 * 2) by ring. apply sqrt_square. lra. Qed.

(** C7, as the specification has it, fails: the pose with the quaternion
    (24/13, 0, 0, -10/13), of norm 2, comes back with the quaternion
    (12/13, 0, 0, -5/13): neither the quaternion it had nor its opposite,
    and with a negative scalar part. *)
Lemma round_trip_counterexample :
  let p := mkPose (mkVector3 1 2 3) (mkQuaternion (24 / 13) 0 0 (- 10 / 13)) in
  exists p',
    np2pose (pose2np (PoseObj p)) Pose_0 = Ok p'
    /\ position p' = position p
    /\ orientation p' = mkQuaternion (12 / 13) 0 0 (- 5 / 13)
    /\ qw (orientation p') < 0.
Proof.
  intros p. rewrite pose2np_Pose.
  assert (Hu : unitq (quat_array (orientation p)) = V4 (12 / 13) 0 0 (- 5 / 13)).
  { cbv [p orientation quat_array qx qy qz qw]. unfold unitq.
    replace (dot4 _ _) with 4 by (entries; field).
    destruct (Rlt_dec 4 trf._EPS) as [H | _]; [pose proof EPS_lt_1; lra |].
    rewrite sqrt_4. entries. apply V4_eq; lra. }
  rewrite Hu.
  destruct (np2pose_rigid (V4 (12 / 13) 0 0 (- 5 / 13))
              (Vector3_array (position p)) Pose_0) as (s & Hs & Hp & Hr).
  { entries. field. }
  assert (Hs1 : s = 1).
  { cbv [pivot] in Hp.
    repeat match type of Hp with
           | context [Rlt_dec ?a ?b] => destruct (Rlt_dec a b); try lra
           end;
    destruct Hs; lra. }
  subst s. rewrite Hr. eexists. split; [reflexivity |].
  cbv [orientation position Quaternion_of scale4 get4 e0 e1 e2 e3 qw].
  split; [reflexivity | split; [apply Quaternion_eq; lra | lra]].
Qed.

(** * Inverse of a rigid transform *)

Lemma analytic_inverse_left (g : mat4) :
  rigid_transform g -> np.dot (analytic_inverse g) g = eye4.
Proof.
  intros (Hrow & H00 & H11 & H22 & H01 & H02 & H12).
  destruct_mat g. cbv [columns] in *. cbv [analytic_inverse]. entries.
  entries_in H00; entries_in H11; entries_in H22.
  entries_in H01; entries_in H02; entries_in H12.
  injection Hrow as -> -> -> ->.
  by_entries; lra.
Qed.

Lemma det_rigid_transform (g : mat4) : rigid_transform g -> np.det g <> 0.
Proof.
  intros (Hrow & H00 & H11 & H22 & H01 & H02 & H12).
  destruct_mat g. cbv [columns] in *.
  entries_in H00; entries_in H11; entries_in H22.
  entries_in H01; entries_in H02; entries_in H12.
  injection Hrow as -> -> -> ->. entries.
  match goal with |- ?d <> 0 => set (D := d) end.
  assert (HD : D * D = 1).
  { match type of H00 with ?a = _ => set (A := a) in * end.
    match type of H11 with ?a = _ => set (B := a) in * end.
    match type of H22 with ?a = _ => set (C := a) in * end.
    match type of H01 with ?a = _ => set (E := a) in * end.
    match type of H02 with ?a = _ => set (F := a) in * end.
    match type of H12 with ?a = _ => set (G := a) in * end.
    transitivity (A * (B * C - G * G) - E * (E * C - G * F) + F * (E * G - B * F)).
    - unfold D, A, B, C, E, F, G. ring.
    - rewrite H00, H11, H22, H01, H02, H12. ring. }
  intros E0. rewrite E0 in HD. lra.
Qed.

(** C9.  For a rigid homogeneous transform [g], [numpy.linalg.inv] returns
    the analytic inverse [[Rt, -Rt t], [0, 1]], and [g] times it is the
    identity. *)
Theorem rigid_inverse_analytic (g : mat4) :
  rigid_transform g ->
  np.linalg_inv g = Ok (analytic_inverse g)
  /\ np.dot g (analytic_inverse g) = eye4.
Proof.
  intros Hg.
  pose proof (det_rigid_transform g Hg) as Hdet.
  pose proof (linalg_inv_unique g _ Hdet (analytic_inverse_left g Hg)) as Hinv.
  split; [exact Hinv |].
  destruct (linalg_inv_inverse g Hdet) as (k & Hk & Hgk & _).
  rewrite Hinv in Hk. injection Hk as <-. exact Hgk.
Qed.

Lemma rigid_inverse_analytic_witness :
  let g := M4 (V4 0 (-1) 0 1) (V4 1 0 0 2) (V4 0 0 1 3) (V4 0 0 0 1) in
  rigid_transform g
  /\ np.linalg_inv g = Ok (analytic_inverse g)
  /\ np.dot g (analytic_inverse g) = eye4.
Proof.
  intros g.
  assert (Hg : rigid_transform g).
  { unfold rigid_transform, columns, g. entries.
    repeat split; lra. }
  split; [exact Hg |].
  exact (rigid_inverse_analytic g Hg).
Defined.

(** * Arguments that are neither a pose nor a transform *)

(** C10.  On a value that is no [Pose] and no [Transform], [pose2np]
    returns the identity matrix, and [transform_between_poses] treats the
    value, on either side, as the pose at the origin with the identity
    orientation. *)
Theorem pose2np_neither_pose_nor_transform (o : pyobj) :
  isinstance_Pose o = false ->
  isinstance_Transform o = false ->
  pose2np o = eye4
  /\ (forall pf, transform_between_poses o pf
                 = transform_between_poses (PoseObj identity_pose) pf)
  /\ (forall pb, transform_between_poses pb o
                 = transform_between_poses pb (PoseObj identity_pose)).
Proof.
  intros H1 H2. pose proof (pose2np_other o H1 H2) as Ho.
  split; [exact Ho |].
  unfold transform_between_poses. rewrite Ho, pose2np_identity_pose.
  split; reflexivity.
Qed.

Lemma pose2np_neither_pose_nor_transform_witness :
  let r := PoseStampedObj
             (mkPoseStamped (mkHeader 0%nat "world")
                (mkPose (mkVector3 5 0 0) (mkQuaternion 0 0 0 1))) in
  isinstance_Pose r = false
  /\ isinstance_Transform r = false
  /\ pose2np r = eye4
  /\ (forall pf, transform_between_poses r pf
                 = transform_between_poses (PoseObj identity_pose) pf)
  /\ (forall pb, transform_between_poses pb r
                 = transform_between_poses pb (PoseObj identity_pose)).
Proof.
  intros r.
  split; [reflexivity | split; [reflexivity |]].
  exact (pose2np_neither_pose_nor_transform r eq_refl eq_refl).
Defined.

(** * Names that nothing binds *)

(** The module binds none of the names the node's code trips on. *)
Lemma names_unbound :
  global "PoseStamped" = Raise NameError
  /\ global "TransformStamped" = Raise NameError
  /\ global "Vector3" = Raise NameError
  /\ global "ux_idx" = Raise NameError
  /\ global "this" = Raise NameError.
Proof. repeat split. Qed.

(** * [callback] *)

Lemma index_absent (x : string) (l : list string) :
  ~ In x l -> index x l = Raise ValueError.
Proof.
  induction l as [| y l IH]; intros H; [reflexivity |].
  cbn [index]. destruct (String.eqb_spec y x) as [-> | _].
  - exfalso. apply H. left. reflexivity.
  - rewrite IH; [reflexivity |]. intros Hin. apply H. right. exact Hin.
Qed.

Lemma index_present (x : string) (l : list string) :
  In x l -> exists i, index x l = Ok i.
Proof.
  induction l as [| y l IH]; intros H; [contradiction |].
  cbn [index]. destruct (String.eqb_spec y x) as [-> | Hne].
  - exists O. reflexivity.
  - destruct H as [-> | H]; [contradiction |].
    destruct (IH H) as (i & ->). exists (S i). reflexivity.
Qed.

(** Once the lookup has found the body, the first subscript raises. *)
Lemma callback_found (data : ModelStates) (self : OdometryPublisher) (i : nat) :
  index "puzzlebot" (name data) = Ok i ->
  callback data self = (self, Raise NameError).
Proof. intros H. unfold callback. rewrite H. reflexivity. Qed.

Lemma callback_unchanged (data : ModelStates) (self : OdometryPublisher) :
  fst (callback data self) = self.
Proof.
  destruct (index "puzzlebot" (name data)) as [i | e] eqn:H.
  - rewrite (callback_found data self i H). reflexivity.
  - unfold callback. rewrite H. reflexivity.
Qed.

(** * The loop of [main] *)

Lemma main_iteration_sample (self : OdometryPublisher) (ms : Pose) :
  model_state self = Some ms ->
  main_iteration self = (self, [], Raise NameError).
Proof.
  intros H. unfold main_iteration, get_initial_pose, publish_state. rewrite H.
  destruct (initial_state self); cbn; rewrite ?H; reflexivity.
Qed.

Lemma main_iteration_no_sample (self : OdometryPublisher) :
  model_state self = None ->
  main_iteration self = (self, [], Ok done).
Proof.
  intros H. unfold main_iteration, get_initial_pose, publish_state. rewrite H.
  destruct (initial_state self); cbn; rewrite ?H; reflexivity.
Qed.

Lemma main_iteration_unchanged (self : OdometryPublisher) :
  fst (main_iteration self) = (self, []).
Proof.
  destruct (model_state self) as [ms |] eqn:H.
  - rewrite (main_iteration_sample self ms H). reflexivity.
  - rewrite (main_iteration_no_sample self H). reflexivity.
Qed.

(** * The running node *)

Lemma step_Deliver (n : node) (data : ModelStates) :
  looping n = true ->
  step n (Deliver data)
  = mkNode (fst (callback data (self_of n))) (sent_of n) true.
Proof.
  intros H. unfold step. rewrite H.
  destruct (callback data (self_of n)). reflexivity.
Qed.

Lemma step_Iterate (n : node) (now : Time) :
  looping n = true ->
  step n (Iterate now)
  = mkNode (self_of n) (sent_of n)
      match snd (main_iteration (self_of n)) with
      | Ok _ => true
      | Raise _ => false
      end.
Proof.
  intros H. unfold step. rewrite H.
  pose proof (main_iteration_unchanged (self_of n)) as Hm.
  destruct (main_iteration (self_of n)) as [[self sent] r].
  cbn [fst snd] in *. injection Hm as -> ->. rewrite app_nil_r. reflexivity.
Qed.

Lemma step_stopped (n : node) (ev : event) : looping n = false -> step n ev = n.
Proof. intros H. unfold step. rewrite H. reflexivity. Qed.

(** No message and no pass changes a field of the node or sends
    anything. *)
Lemma step_unchanged (n : node) (ev : event) :
  self_of (step n ev) = self_of n /\ sent_of (step n ev) = sent_of n.
Proof.
  destruct (looping n) eqn:Hl; [| rewrite step_stopped by assumption; auto].
  destruct ev as [data | now].
  - rewrite step_Deliver by assumption. cbn [self_of sent_of].
    rewrite callback_unchanged. auto.
  - rewrite step_Iterate by assumption. auto.
Qed.

Lemma run_unchanged (evs : list event) (n : node) :
  self_of (run evs n) = self_of n /\ sent_of (run evs n) = sent_of n.
Proof.
  revert n. induction evs as [| ev evs IH]; intros n; [auto |].
  cbn [run fold_left]. fold (run evs (step n ev)).
  destruct (IH (step n ev)) as [-> ->]. apply step_unchanged.
Qed.

(** C6, on the code.  The reference is never latched and never announced.
    Whatever the node holds and whatever messages and passes follow,
    [initial_state] stays what it was and no static announcement is added;
    from the node as [__init__] leaves it, [initial_state] is [None] for
    ever and nothing is announced.  The statement that should latch, run on
    a node that holds the sample P0 = ((5, 0, 0), identity) and no
    reference, raises [NameError] at [PoseStamped()] before it writes
    [initial_state] or sends anything, and the pass ends there. *)
Theorem reference_never_latched (evs : list event) (n : node) :
  (initial_state (self_of (run evs n)) = initial_state (self_of n)
   /\ statics (sent_of (run evs n)) = statics (sent_of n))
  /\ (initial_state (self_of (run evs start)) = None
      /\ statics (sent_of (run evs start)) = [])
  /\ (let P0 := mkPose (mkVector3 5 0 0) (mkQuaternion 0 0 0 1) in
      let tw := mkTwist (mkVector3 0 0 0) (mkVector3 0 0 0) in
      let self := mkOdometryPublisher (Some P0) (Some tw) None None in
      get_initial_pose self = (self, [], Raise NameError)
      /\ main_iteration self = (self, [], Raise NameError)
      /\ looping (step (mkNode self [] true) (Iterate 0%nat)) = false).
Proof.
  split; [| split].
  - destruct (run_unchanged evs n) as [-> ->]. auto.
  - destruct (run_unchanged evs start) as [-> ->]. auto.
  - repeat split.
Qed.

(** C8.  When no body is called "puzzlebot" in a message, the lookup in
    [callback] raises ([list.index] raises [ValueError]), the node is as it
    was, and the run goes on as if the message had not come. *)
Theorem callback_body_absent (data : ModelStates) (n : node) (evs : list event) :
  ~ In "puzzlebot"%string (name data) ->
  index "puzzlebot" (name data) = Raise ValueError
  /\ callback data (self_of n) = (self_of n, Raise ValueError)
  /\ step n (Deliver data) = n
  /\ run (Deliver data :: evs) n = run evs n.
Proof.
  intros H. pose proof (index_absent _ _ H) as Hi.
  assert (Hc : callback data (self_of n) = (self_of n, Raise ValueError))
    by (unfold callback; rewrite Hi; reflexivity).
  assert (Hs : step n (Deliver data) = n).
  { destruct (looping n) eqn:Hl; [| apply step_stopped, Hl].
    rewrite step_Deliver, Hc by assumption. cbn [fst].
    destruct n as [self sent l]. cbn in Hl |- *. rewrite Hl. reflexivity. }
  split; [exact Hi | split; [exact Hc | split; [exact Hs |]]].
  cbn [run fold_left]. rewrite Hs. reflexivity.
Qed.

Lemma callback_body_absent_witness :
  let data := mkModelStates ["ground_plane"%string] [Pose_0] [mkTwist Vector3_0 Vector3_0] in
  let evs := [Iterate 1%nat] in
  ~ In "puzzlebot"%string (name data)
  /\ index "puzzlebot" (name data) = Raise ValueError
  /\ callback data (self_of start) = (self_of start, Raise ValueError)
  /\ step start (Deliver data) = start
  /\ run (Deliver data :: evs) start = run evs start.
Proof.
  intros data evs.
  assert (H : ~ In "puzzlebot"%string (name data)).
  { cbn. intros [E | []]. discriminate E. }
  split; [exact H |].
  exact (callback_body_absent data start evs H).
Defined.


(** ** Scenario B *)

Lemma sign_identity (s : R) :
  s = 1 \/ s = -1 -> 0 < pivot (V4 0 0 0 1) * s -> s = 1.
Proof.
  intros [-> | ->] H; [reflexivity |].
  cbv [pivot] in H. destruct (Rlt_dec 1 (4 * 1 * 1)) as [_ | Hn]; lra.
Qed.

(** Against a reference that is a [PoseStamped], the transform of a pose
    with the identity orientation is that pose. *)
Lemma transform_between_poses_reference (s : PoseStamped) (v : Vector3) :
  transform_between_poses (PoseStampedObj s)
    (PoseObj (mkPose v (mkQuaternion 0 0 0 1)))
  = Ok (mkTransform v (mkQuaternion 0 0 0 1)).
Proof.
  destruct (transform_between_poses_other (PoseStampedObj s)
              (mkPose v (mkQuaternion 0 0 0 1)) eq_refl eq_refl)
    as (k & Hk & Hp & ->).
  cbn [orientation position] in *.
  change (quat_array (mkQuaternion 0 0 0 1)) with (V4 0 0 0 1) in *.
  rewrite unitq_unit in * by (entries; ring).
  rewrite (sign_identity k Hk Hp).
  f_equal. f_equal. cbv [Quaternion_of scale4 get4 e0 e1 e2 e3].
  apply Quaternion_eq; ring.
Qed.

(** C2, on the code.  In scenario B (a message with the body at
    P0 = ((5, 0, 0), identity), a pass, a message with the body at
    P1 = ((5, 1, 0), identity) and the world-frame velocity (0, 1, 0), a
    pass) the node sends nothing and stores nothing, wherever it starts
    from: no record is emitted.  The two calls that should make the record
    miss it as well: [transform_between_poses], given a [PoseStamped]
    reference at P0 and the pose P1, returns the translation (5, 1, 0), that
    of P1 itself, where the specification has (0, 1, 0); and
    [transform_vector], given the messages [main] hands it, raises
    [TypeError] where the specification has (0, 1, 0). *)
Theorem scenario_B_publishes_nothing (n : node) (t0 t1 : Time) (tw0 : Twist)
    (h : Header) :
  let P0 := mkPose (mkVector3 5 0 0) (mkQuaternion 0 0 0 1) in
  let P1 := mkPose (mkVector3 5 1 0) (mkQuaternion 0 0 0 1) in
  let tw1 := mkTwist (mkVector3 0 1 0) (mkVector3 0 0 0) in
  let evs := [Deliver (mkModelStates ["puzzlebot"%string] [P0] [tw0]);
              Iterate t0;
              Deliver (mkModelStates ["puzzlebot"%string] [P1] [tw1]);
              Iterate t1] in
  (sent_of (run evs n) = sent_of n /\ self_of (run evs n) = self_of n)
  /\ callback (mkModelStates ["puzzlebot"%string] [P1] [tw1]) (self_of n)
     = (self_of n, Raise NameError)
  /\ transform_between_poses (PoseStampedObj (mkPoseStamped h P0)) (PoseObj P1)
     = Ok (mkTransform (mkVector3 5 1 0) (mkQuaternion 0 0 0 1))
  /\ transform_vector
       (Transform_message (mkTransform (translation Transform_0) (orientation P1)))
       (Vector3Msg (linear tw1)) true
     = Raise TypeError.
Proof.
  intros P0 P1 tw1 evs.
  split; [| split; [| split]].
  - destruct (run_unchanged evs n) as [-> ->]. auto.
  - reflexivity.
  - apply transform_between_poses_reference.
  - reflexivity.
Qed.

(** * The matrix of any argument *)

Lemma eye4_rigid : eye4 = rigid (V4 0 0 0 1) (V3 0 0 0).
Proof. cbv [eye4 rigid c0 c1 c2]. by_entries; ring. Qed.

Lemma pose2np_rigid (o : pyobj) : pose2np o = rigid (unit_quaternion o) (origin o).
Proof.
  destruct o as [p | t | s | s |];
    [apply pose2np_Pose | apply pose2np_Transform | | |]; apply eye4_rigid.
Qed.

Lemma unit_quaternion_norm (o : pyobj) :
  dot4 (unit_quaternion o) (unit_quaternion o) = 1.
Proof.
  destruct o; cbn [unit_quaternion]; try apply unitq_norm; entries; ring.
Qed.

Lemma rigid_is_rigid_transform (u : vec4) (p : vec3) :
  dot4 u u = 1 -> rigid_transform (rigid u p) /\ np.det (rigid u p) = 1.
Proof.
  intros Hu. split; [| rewrite det_rigid, Hu; ring].
  destruct u as [x y z w], p as [p0 p1 p2]. entries_in Hu.
  assert (Hu2 : (x * x + y * y + z * z + w * w) * (x * x + y * y + z * z + w * w) = 1)
    by (rewrite Hu; ring).
  unfold rigid_transform, columns. cbv [rigid c0 c1 c2]. entries.
  repeat split; try ring; rewrite <- Hu2; ring.
Qed.

(** X1.  Whatever it is given, [pose2np] returns a rigid transform: bottom
    row [[0, 0, 0, 1]], orthonormal rotation block, determinant 1. *)
Theorem pose2np_rigid_transform (o : pyobj) :
  rigid_transform (pose2np o) /\ np.det (pose2np o) = 1.
Proof.
  rewrite pose2np_rigid. apply rigid_is_rigid_transform, unit_quaternion_norm.
Qed.

(** X2.  Whatever its two arguments, [transform_between_poses] raises
    nothing: it returns a transform whose quaternion has norm 1, and the
    matrix of the first argument times the matrix of that transform is the
    matrix of the second. *)
Theorem transform_between_poses_total (pb pf : pyobj) :
  exists t, transform_between_poses pb pf = Ok t
            /\ norm2 (rotation t) = 1
            /\ np.dot (pose2np pb) (pose2np (TransformObj t)) = pose2np pf.
Proof.
  unfold transform_between_poses. rewrite !pose2np_rigid.
  set (ub := unit_quaternion pb). set (uf := unit_quaternion pf).
  set (xb := origin pb). set (xf := origin pf).
  assert (Hb : dot4 ub ub = 1) by apply unit_quaternion_norm.
  assert (Hf : dot4 uf uf = 1) by apply unit_quaternion_norm.
  rewrite (linalg_inv_rigid ub xb Hb). cbn [bind].
  pose proof (rigid_dot (trf.quaternion_conjugate ub) uf (back ub xb) xf) as Hg.
  set (u := trf.quaternion_multiply (trf.quaternion_conjugate ub) uf) in *.
  set (x := move _ xf (back ub xb)) in *.
  assert (Hu : dot4 u u = 1).
  { unfold u. rewrite norm_multiply, norm_conjugate, Hb, Hf. ring. }
  rewrite Hg.
  destruct (np2trf_rigid u x Transform_0 Hu) as (s & Hs & _ & Ht).
  eexists. split; [exact Ht |]. split.
  - unfold norm2. cbn [rotation]. rewrite quat_array_of, norm_sign; assumption.
  - rewrite pose2np_np2trf by assumption.
    rewrite <- Hg, dot_assoc, rigid_inverse_right by assumption.
    apply dot_eye_l.
Qed.

Lemma half_over_sqrt_4 : trf.half_over_sqrt (4 * 1) = Ok (/ 4).
Proof.
  destruct (half_over_sqrt_pivot 4 1) as (s & Hs & Hp & Hq); [ring | lra |].
  rewrite Hq. f_equal. destruct Hs as [-> | ->]; lra.
Qed.

Lemma np2trf_eye (t : Transform) : np2trf eye4 t = Ok identity_transform.
Proof.
  unfold np2trf.
  rewrite quaternion_from_matrix_trace by (entries; lra).
  replace (trace eye4 * at4 eye4 3 3) with (4 * 1) by (entries; ring).
  rewrite half_over_sqrt_4. cbn [bind translation]. entries.
  unfold identity_transform. f_equal. f_equal. apply Quaternion_eq; lra.
Qed.

(** X3.  The transform between an argument and itself is the identity
    transform: zero translation and the quaternion (0, 0, 0, 1), whatever
    the pose and however its quaternion is scaled. *)
Theorem transform_between_poses_self (o : pyobj) :
  transform_between_poses o o = Ok identity_transform.
Proof.
  unfold transform_between_poses. rewrite pose2np_rigid.
  rewrite (linalg_inv_rigid _ _ (unit_quaternion_norm o)). cbn [bind].
  rewrite (rigid_inverse_left _ _ (unit_quaternion_norm o)).
  apply np2trf_eye.
Qed.

(** The matrix does not tell a quaternion from its opposite. *)
Lemma rigid_unitq_neg (q : Quaternion) (p : vec3) :
  rigid (unitq (quat_array (Quaternion_neg q))) p = rigid (unitq (quat_array q)) p.
Proof.
  destruct q as [x y z w]. cbv [Quaternion_neg quat_array qx qy qz qw]. unfold unitq.
  replace (dot4 (V4 (- x) (- y) (- z) (- w)) (V4 (- x) (- y) (- z) (- w)))
    with (dot4 (V4 x y z w) (V4 x y z w)) by (entries; ring).
  destruct (Rlt_dec _ _); [reflexivity |].
  set (r := / sqrt _). destruct p as [p0 p1 p2].
  cbv [rigid scale4 e0 e1 e2 e3 c0 c1 c2]. by_entries; ring.
Qed.

(** X4.  A pose or a transform and the one with the opposite quaternion
    have the same matrix. *)
Theorem pose2np_opposite_quaternion (v : Vector3) (q : Quaternion) :
  pose2np (PoseObj (mkPose v (Quaternion_neg q))) = pose2np (PoseObj (mkPose v q))
  /\ pose2np (TransformObj (mkTransform v (Quaternion_neg q)))
     = pose2np (TransformObj (mkTransform v q)).
Proof.
  rewrite !pose2np_Pose, !pose2np_Transform.
  cbn [orientation position rotation translation].
  split; apply rigid_unitq_neg.
Qed.

(** X5.  Scaling the quaternion by a positive number leaves the matrix
    unchanged, as long as both squared norms stay at or above [_EPS]:
    [pose2np] normalises. *)
Theorem pose2np_scaled_quaternion (k : R) (v : Vector3) (q : Quaternion) :
  0 < k ->
  trf._EPS <= norm2 q ->
  trf._EPS <= norm2 (Quaternion_scale k q) ->
  pose2np (PoseObj (mkPose v (Quaternion_scale k q))) = pose2np (PoseObj (mkPose v q))
  /\ pose2np (TransformObj (mkTransform v (Quaternion_scale k q)))
     = pose2np (TransformObj (mkTransform v q)).
Proof.
  intros Hk Hq Hkq. unfold norm2 in *.
  rewrite !pose2np_Pose, !pose2np_Transform.
  cbn [orientation position rotation translation].
  assert (E : unitq (quat_array (Quaternion_scale k q)) = unitq (quat_array q)).
  { rewrite !unitq_scaled by assumption.
    assert (Hpos : 0 < dot4 (quat_array q) (quat_array q))
      by (pose proof EPS_pos; lra).
    pose proof (sqrt_lt_R0 _ Hpos) as Hr.
    assert (Hs : sqrt (dot4 (quat_array (Quaternion_scale k q))
                         (quat_array (Quaternion_scale k q)))
                 = k * sqrt (dot4 (quat_array q) (quat_array q))).
    { replace (dot4 (quat_array (Quaternion_scale k q))
                 (quat_array (Quaternion_scale k q)))
        with ((k * k) * dot4 (quat_array q) (quat_array q))
        by (destruct q as [x y z w]; cbv [Quaternion_scale quat_array qx qy qz qw];
            entries; ring).
      rewrite sqrt_mult by nra. rewrite sqrt_square by lra. reflexivity. }
    rewrite Hs. set (r := sqrt _) in *.
    destruct q as [x y z w]. cbv [Quaternion_scale quat_array qx qy qz qw].
    entries. apply V4_eq; field; lra. }
  rewrite E. split; reflexivity.
Qed.

Lemma pose2np_scaled_quaternion_witness :
  let q := mkQuaternion 0 0 0 1 in
  let v := mkVector3 1 2 3 in
  0 < 2
  /\ trf._EPS <= norm2 q
  /\ trf._EPS <= norm2 (Quaternion_scale 2 q)
  /\ pose2np (PoseObj (mkPose v (Quaternion_scale 2 q))) = pose2np (PoseObj (mkPose v q))
  /\ pose2np (TransformObj (mkTransform v (Quaternion_scale 2 q)))
     = pose2np (TransformObj (mkTransform v q)).
Proof.
  intros q v.
  assert (H1 : 0 < 2) by lra.
  assert (H2 : trf._EPS <= norm2 q).
  { cbv [norm2 q quat_array qx qy qz qw dot4 e0 e1 e2 e3].
    pose proof EPS_lt_1. lra. }
  assert (H3 : trf._EPS <= norm2 (Quaternion_scale 2 q)).
  { cbv [norm2 q Quaternion_scale quat_array qx qy qz qw dot4 e0 e1 e2 e3].
    pose proof EPS_lt_1. lra. }
  split; [exact H1 | split; [exact H2 | split; [exact H3 |]]].
  exact (pose2np_scaled_quaternion 2 v q H1 H2 H3).
Defined.

(** X6.  The matrix of an argument, written back with [np2trf] or
    [np2pose] and converted again, is the same matrix: neither call raises,
    and both give back a transform or pose with that matrix. *)
Theorem pose2np_round_trip (o : pyobj) (t0 : Transform) (p0 : Pose) :
  (exists t, np2trf (pose2np o) t0 = Ok t
             /\ pose2np (TransformObj t) = pose2np o)
  /\ (exists p, np2pose (pose2np o) p0 = Ok p
                /\ pose2np (PoseObj p) = pose2np o).
Proof.
  rewrite pose2np_rigid.
  pose proof (unit_quaternion_norm o) as Hu.
  split.
  - destruct (np2trf_rigid _ (origin o) t0 Hu) as (s & Hs & _ & Ht).
    eexists. split; [exact Ht |]. apply pose2np_np2trf; assumption.
  - destruct (np2pose_rigid _ (origin o) p0 Hu) as (s & Hs & _ & Hp).
    eexists. split; [exact Hp |].
    rewrite pose2np_Pose. cbn [orientation position].
    rewrite quat_array_of, unitq_unit by (rewrite norm_sign; assumption).
    rewrite rigid_sign by assumption.
    destruct (origin o) as [a b c]. reflexivity.
Qed.

(** * More on [transform_vector] *)

(** X7.  [transform_vector] does not normalise.  On sequences, sent forward
    and then back, or back and then forward, a vector comes out multiplied
    by the square of the squared norm of the quaternion: unchanged for a
    unit quaternion. *)
Theorem transform_vector_there_and_back (d : pyval) (x y z w a b c : R)
    (inverse : bool) :
  let t := mkTransformObject d (Seq [x; y; z; w]) in
  let n := x * x + y * y + z * z + w * w in
  exists r,
    transform_vector t (Seq [a; b; c]) inverse = Ok r
    /\ transform_vector t (Seq [c0 r; c1 r; c2 r]) (negb inverse)
       = Ok (V3 (n * n * a) (n * n * b) (n * n * c)).
Proof.
  intros t n.
  destruct inverse; eexists; (split; [reflexivity |]);
    cbv [t n negb transform_vector list_ app bind t_rotation
         quaternion_multiply_call quaternion_conjugate_call unpack4 first4 array4
         trf.quaternion_multiply trf.quaternion_conjugate
         take3 e0 e1 e2 e3 c0 c1 c2];
    f_equal; apply V3_eq; ring.
Qed.

(** X8.  On sequences, in either direction, the squared length of the
    result is the squared length of the vector times the square of the
    squared norm of the quaternion: a unit quaternion keeps lengths. *)
Theorem transform_vector_length (d : pyval) (x y z w a b c : R) (inverse : bool) :
  let n := x * x + y * y + z * z + w * w in
  exists r,
    transform_vector (mkTransformObject d (Seq [x; y; z; w])) (Seq [a; b; c]) inverse
    = Ok r
    /\ Hamilton.dot3 r r = n * n * (a * a + b * b + c * c).
Proof.
  intros n.
  destruct inverse; eexists; (split; [reflexivity |]);
    cbv [n Hamilton.dot3 trf.quaternion_multiply trf.quaternion_conjugate
         take3 e0 e1 e2 e3 c0 c1 c2];
    ring.
Qed.

(** X9.  For a unit quaternion, [transform_vector] on the sequence
    [[x, y, z, w]] and [pose2np] on the [Transform] message with that
    quaternion agree: forward is the rotation block of the matrix applied
    to the vector, inverse is its transpose applied to the vector. *)
Theorem transform_vector_matrix (d : pyval) (p : Vector3) (x y z w a b c : R) :
  x * x + y * y + z * z + w * w = 1 ->
  let t := mkTransformObject d (Seq [x; y; z; w]) in
  let m := pose2np (TransformObj (mkTransform p (mkQuaternion x y z w))) in
  transform_vector t (Seq [a; b; c]) false = Ok (rotate m (V3 a b c))
  /\ transform_vector t (Seq [a; b; c]) true = Ok (rotate_back m (V3 a b c)).
Proof.
  intros Hn t m. subst t m.
  rewrite pose2np_Transform. cbn [rotation translation].
  rewrite unitq_unit
    by (cbv [quat_array qx qy qz qw]; entries; exact Hn).
  cbv [transform_vector list_ app bind t_rotation
       quaternion_multiply_call quaternion_conjugate_call unpack4 first4 array4
       trf.quaternion_multiply trf.quaternion_conjugate
       rotate rotate_back rigid quat_array Vector3_array
       qx qy qz qw vx vy vz take3 c0 c1 c2].
  entries. split; f_equal; apply V3_eq; ring.
Qed.

Lemma transform_vector_matrix_witness :
  let t := mkTransformObject (Seq [1; 2; 3]) (Seq [0; 0; 1; 0]) in
  let m := pose2np (TransformObj (mkTransform (mkVector3 1 2 3) (mkQuaternion 0 0 1 0))) in
  0 * 0 + 0 * 0 + 1 * 1 + 0 * 0 = 1
  /\ transform_vector t (Seq [1; 0; 0]) false = Ok (rotate m (V3 1 0 0))
  /\ transform_vector t (Seq [1; 0; 0]) true = Ok (rotate_back m (V3 1 0 0)).
Proof.
  intros t m.
  assert (H : 0 * 0 + 0 * 0 + 1 * 1 + 0 * 0 = 1) by lra.
  split; [exact H |].
  exact (transform_vector_matrix (Seq [1; 2; 3]) (mkVector3 1 2 3) 0 0 1 0 1 0 0 H).
Defined.

(** X19.  Given a rotation of four numbers, [transform_vector] raises
    [ValueError] in both directions on a vector that does not have exactly
    three entries: the vector with a [0.0] appended is unpacked into four
    names. *)
Theorem transform_vector_wrong_length (d : pyval) (x y z w : R) (l : list R)
    (inverse : bool) :
  List.length l <> 3%nat ->
  transform_vector (mkTransformObject d (Seq [x; y; z; w])) (Seq l) inverse
  = Raise ValueError.
Proof.
  intros H.
  destruct l as [| a [| b [| c [| e l]]]]; try (destruct inverse; reflexivity).
  - exfalso. apply H. reflexivity.
  - destruct l; destruct inverse; reflexivity.
Qed.

Lemma transform_vector_wrong_length_witness :
  let l := [1; 0] in
  List.length l <> 3%nat
  /\ transform_vector (mkTransformObject (Seq []) (Seq [0; 0; 0; 1])) (Seq l) true
     = Raise ValueError.
Proof.
  intros l.
  assert (H : List.length l <> 3%nat) by (cbn; lia).
  split; [exact H |].
  exact (transform_vector_wrong_length (Seq []) 0 0 0 1 l true H).
Defined.

(** * Matrices that [np2trf] and [np2pose] refuse *)

Lemma half_over_sqrt_0 : trf.half_over_sqrt 0 = Raise ZeroDivisionError.
Proof.
  unfold trf.half_over_sqrt.
  destruct (Rlt_dec 0 0) as [H | _]; [lra |].
  rewrite sqrt_0. destruct (Req_dec_T 0 0) as [_ | H]; [reflexivity | lra].
Qed.

Lemma quaternion_from_matrix_corner_0 (M : mat4) :
  at4 M 3 3 = 0 -> trf.quaternion_from_matrix M = Raise ZeroDivisionError.
Proof.
  intros H. unfold trf.quaternion_from_matrix.
  destruct (Rgt_dec (trace M) (at4 M 3 3));
    [| destruct (Rgt_dec (at4 M 1 1) (at4 M 0 0));
       [destruct (Rgt_dec (at4 M 2 2) (at4 M 1 1))
       | destruct (Rgt_dec (at4 M 2 2) (at4 M 0 0))]];
    cbv beta iota zeta; rewrite H, Rmult_0_r, half_over_sqrt_0; reflexivity.
Qed.

(** X10.  On a matrix whose bottom right entry is 0, [np2trf] and
    [np2pose] raise [ZeroDivisionError]: the quaternion is scaled by
    [0.5 / sqrt(t * M[3, 3])]. *)
Theorem np2trf_corner_zero (a : mat4) (t : Transform) (p : Pose) :
  at4 a 3 3 = 0 ->
  np2trf a t = Raise ZeroDivisionError /\ np2pose a p = Raise ZeroDivisionError.
Proof.
  intros H. unfold np2trf, np2pose.
  rewrite (quaternion_from_matrix_corner_0 a H). split; reflexivity.
Qed.

Lemma np2trf_corner_zero_witness :
  let a := M4 (V4 1 0 0 5) (V4 0 1 0 1) (V4 0 0 1 0) (V4 0 0 0 0) in
  at4 a 3 3 = 0
  /\ np2trf a Transform_0 = Raise ZeroDivisionError
  /\ np2pose a Pose_0 = Raise ZeroDivisionError.
Proof.
  intros a.
  split; [reflexivity |].
  exact (np2trf_corner_zero a Transform_0 Pose_0 eq_refl).
Defined.

(** * More on the node *)

(** X11.  [callback] stores nothing, whatever the message: when no body is
    called "puzzlebot" the lookup raises [ValueError], and when one is, the
    first subscript reads [ux_idx], which nothing binds, and raises
    [NameError]; either way every field of the node is as it was. *)
Theorem callback_stores_nothing (data : ModelStates) (self : OdometryPublisher) :
  exists e,
    callback data self = (self, Raise e)
    /\ (In "puzzlebot"%string (name data) -> e = NameError)
    /\ (~ In "puzzlebot"%string (name data) -> e = ValueError).
Proof.
  destruct (index "puzzlebot" (name data)) as [i | e] eqn:Hi.
  - exists NameError. split; [apply (callback_found data self i Hi) |].
    split; [reflexivity |].
    intros H. rewrite (index_absent _ _ H) in Hi. discriminate.
  - exists e. split; [unfold callback; rewrite Hi; reflexivity |].
    split.
    + intros H. destruct (index_present _ _ H) as (i & Hi').
      rewrite Hi' in Hi. discriminate.
    + intros H. rewrite (index_absent _ _ H) in Hi. injection Hi as <-.
      reflexivity.
Qed.

